(** * reolink_video.py: the [ReolinkVideo] clip descriptor and its scan loop

    A shallow embedding of [src/reolink_video.py].  The module is one Python
    class; its methods become functions over a record of the instance
    attributes.  The collaborators the class calls into are interfaces:
    OpenCV and shapely are type classes, the DeepStack client and the
    process environment are values passed in, so every statement below
    holds for any implementation of them.  Exceptions are values of [Exn]; a call that can
    raise returns a [Result].  The scan loop records what it does to the
    outside world as a chronological list of [Event]s. *)

From Stdlib Require Import QArith Lqa.
From Stdlib Require Import ZArith Arith PeanoNat Lia Bool List.
From Stdlib Require Import Ascii String DecimalString.
From Stdlib Require Strings.Byte.
From Stdlib Require DecimalNat.
Import ListNotations.

Open Scope string_scope.
Open Scope nat_scope.

(** ** Exceptions and results *)

Inductive Exn : Type :=
| KeyError (key : string)            (* a missing key of [os.environ] *)
| IndexError                         (* list index out of range *)
| ValueError (msg : string)          (* raised by [datetime.strptime] *)
| EncodeFailure                      (* Exception("Failed to convert numpy array to image.") *)
| CapabilityError (msg : string).    (* whatever the detection client raises *)

Definition Result (A : Type) : Type := (Exn + A)%type.

Definition ret {A} (a : A) : Result A := inr a.
Definition raise {A} (e : Exn) : Result A := inl e.
Definition bind {A B} (m : Result A) (k : A -> Result B) : Result B :=
  match m with
  | inl e => inl e
  | inr a => k a
  end.

Notation "x <- m ;; k" := (bind m (fun x => k))
  (at level 61, m at next level, right associativity).

(** ** Python built-ins used by the module *)

Module Py.

(** [os.environ]: a mapping from names to values; subscripting a missing
    name raises [KeyError]. *)
Definition Environ : Type := string -> option string.

Definition environ_getitem (environ : Environ) (key : string) : Result string :=
  match environ key with
  | Some v => ret v
  | None => raise (KeyError key)
  end.

(** [xs[i]] on a list. *)
Definition getitem {A} (xs : list A) (i : nat) : Result A :=
  match nth_error xs i with
  | Some x => ret x
  | None => raise IndexError
  end.

Fixpoint skip (n : nat) (s : string) : string :=
  match n, s with
  | O, _ => s
  | S _, EmptyString => EmptyString
  | S n', String _ s' => skip n' s'
  end.

(** [str.rsplit(sep, maxsplit)] for a non-empty [sep] (both call sites pass
    a literal).  [maxsplit = None] is Python's default of -1, no limit.
    The string is scanned from its right end: [rsplit_scan] returns, for a
    suffix, the number of splits still allowed, the piece that is being
    collected at the left of the suffix, and the pieces already cut off to
    its right.  A separator is recognised as soon as the collected piece
    starts with it, which is the rightmost occurrence not overlapping a
    separator found before. *)
Definition may_split (budget : option nat) : bool :=
  match budget with
  | None => true
  | Some O => false
  | Some (S _) => true
  end.

Definition one_less (budget : option nat) : option nat :=
  match budget with
  | None => None
  | Some n => Some (pred n)
  end.

Fixpoint rsplit_scan (sep : string) (maxsplit : option nat) (s : string)
  : option nat * string * list string :=
  match s with
  | EmptyString => (maxsplit, EmptyString, [])
  | String c s' =>
      let '(budget, piece, done) := rsplit_scan sep maxsplit s' in
      let piece' := String c piece in
      if may_split budget && prefix sep piece'
      then (one_less budget, EmptyString, skip (String.length sep) piece' :: done)
      else (budget, piece', done)
  end.

Definition rsplit (sep : string) (maxsplit : option nat) (s : string) : list string :=
  let '(_, piece, done) := rsplit_scan sep maxsplit s in piece :: done.

(** [sep.join(xs)], used to state what a separated list is. *)
Fixpoint join (sep : string) (xs : list string) : string :=
  match xs with
  | [] => EmptyString
  | [x] => x
  | x :: rest => x ++ sep ++ join sep rest
  end.

(** [os.path.join(a, b)] on a POSIX system. *)
Definition ends_with_slash (s : string) : bool :=
  match get (String.length s - 1) s with
  | Some c => Ascii.eqb c "/"
  | None => false
  end.

Definition os_path_join (a b : string) : string :=
  if prefix "/" b then b
  else if (String.length a =? 0) || ends_with_slash a then a ++ b
  else a ++ "/" ++ b.

(** *** [datetime] *)

Record datetime : Type := mk_datetime {
  year : nat; month : nat; day : nat;
  hour : nat; minute : nat; second : nat
}.

Definition is_leap (y : nat) : bool :=
  ((y mod 4 =? 0) && negb (y mod 100 =? 0)) || (y mod 400 =? 0).

Definition days_in_month (y m : nat) : nat :=
  match m with
  | 2 => if is_leap y then 29 else 28
  | 4 | 6 | 9 | 11 => 30
  | _ => 31
  end.

(** The checks of the [datetime] constructor. *)
Definition datetime_new (y mo d h mi s : nat) : Result datetime :=
  if negb ((1 <=? y) && (y <=? 9999)) then raise (ValueError "year is out of range")
  else if negb ((1 <=? mo) && (mo <=? 12)) then raise (ValueError "month must be in 1..12")
  else if negb ((1 <=? d) && (d <=? days_in_month y mo)) then raise (ValueError "day is out of range for month")
  else if negb (h <=? 23) then raise (ValueError "hour must be in 0..23")
  else if negb (mi <=? 59) then raise (ValueError "minute must be in 0..59")
  else if negb (s <=? 59) then raise (ValueError "second must be in 0..59")
  else ret (mk_datetime y mo d h mi s).

(** *** [datetime.strptime]

    CPython turns the format into a regular expression, one named group
    per directive, and matches it at the start of the input with the
    usual leftmost, first-alternative-first backtracking; input left over
    after the match is an error.  For the format of this module the
    expression is
<<
 (?P<Y>\d\d\d\d)(?P<m>1[0-2]|0[1-9]|[1-9])
 (?P<d>3[0-1]|[1-2]\d|0[1-9]|[1-9]| [1-9])(?P<H>2[0-3]|[0-1]\d|\d)
 (?P<M>[0-5]\d|\d)(?P<S>6[0-1]|[0-5]\d|\d)
>>
    A group is a list of alternatives in priority order, an alternative a
    list of character classes.  The digit class is modelled for ASCII
    input, where it is "0" to "9". *)
Definition char_class : Type := ascii -> bool.

Definition between (lo hi : ascii) : char_class :=
  fun c => (nat_of_ascii lo <=? nat_of_ascii c) && (nat_of_ascii c <=? nat_of_ascii hi).
Definition digit : char_class := between "0" "9".
Definition just (a : ascii) : char_class := Ascii.eqb a.

Definition directive_regex (d : ascii) : option (list (list char_class)) :=
  if Ascii.eqb d "Y" then Some [[digit; digit; digit; digit]]
  else if Ascii.eqb d "m" then
    Some [[just "1"; between "0" "2"]; [just "0"; between "1" "9"]; [between "1" "9"]]
  else if Ascii.eqb d "d" then
    Some [[just "3"; between "0" "1"]; [between "1" "2"; digit];
          [just "0"; between "1" "9"]; [between "1" "9"]; [just " "; between "1" "9"]]
  else if Ascii.eqb d "H" then
    Some [[just "2"; between "0" "3"]; [between "0" "1"; digit]; [digit]]
  else if Ascii.eqb d "M" then
    Some [[between "0" "5"; digit]; [digit]]
  else if Ascii.eqb d "S" then
    Some [[just "6"; between "0" "1"]; [between "0" "5"; digit]; [digit]]
  else None.

(** The groups of a format made of the six directives above; any other
    format is outside the fragment modelled here. *)
Fixpoint format_groups (format : string) : option (list (ascii * list (list char_class))) :=
  match format with
  | EmptyString => Some []
  | String "%" (String d rest) =>
      match directive_regex d, format_groups rest with
      | Some alts, Some gs => Some ((d, alts) :: gs)
      | _, _ => None
      end
  | String _ _ => None
  end.

Fixpoint match_seq (classes : list char_class) (s : string) : option (string * string) :=
  match classes with
  | [] => Some (EmptyString, s)
  | cl :: classes' =>
      match s with
      | EmptyString => None
      | String c s' =>
          if cl c then
            match match_seq classes' s' with
            | Some (m, rest) => Some (String c m, rest)
            | None => None
            end
          else None
      end
  end.

Fixpoint first_some {A B} (f : A -> option B) (xs : list A) : option B :=
  match xs with
  | [] => None
  | x :: xs' =>
      match f x with
      | Some b => Some b
      | None => first_some f xs'
      end
  end.

(** The first match in backtracking order: the text of every group, and
    the input that is left. *)
Fixpoint regex_match (groups : list (ascii * list (list char_class))) (s : string)
  : option (list (ascii * string) * string) :=
  match groups with
  | [] => Some ([], s)
  | (name, alts) :: groups' =>
      first_some
        (fun alt =>
           match match_seq alt s with
           | None => None
           | Some (m, rest) =>
               match regex_match groups' rest with
               | Some (found, remains) => Some ((name, m) :: found, remains)
               | None => None
               end
           end)
        alts
  end.

(** [int(text)] on the text of a group: decimal digits, a leading blank
    ignored. *)
Fixpoint int_acc (acc : nat) (s : string) : nat :=
  match s with
  | EmptyString => acc
  | String c s' =>
      if digit c then int_acc (10 * acc + (nat_of_ascii c - 48)) s'
      else int_acc acc s'
  end.
Definition int (s : string) : nat := int_acc 0 s.

Fixpoint found_get (found : list (ascii * string)) (name : ascii) (default : nat) : nat :=
  match found with
  | [] => default
  | (n, text) :: found' => if Ascii.eqb n name then int text else found_get found' name default
  end.

Definition strptime (data_string format : string) : Result datetime :=
  match format_groups format with
  | None => raise (ValueError "bad directive in format")
  | Some groups =>
      match regex_match groups data_string with
      | None => raise (ValueError "time data does not match format")
      | Some (found, EmptyString) =>
          datetime_new (found_get found "Y" 1900) (found_get found "m" 1)
                       (found_get found "d" 1) (found_get found "H" 0)
                       (found_get found "M" 0) (found_get found "S" 0)
      | Some (_, String _ _) => raise (ValueError "unconverted data remains")
      end
  end.

(** *** [datetime.strftime]

    [%Y] is the year in decimal (glibc does not pad it); the other five
    directives are two digits, zero padded.  Any other character of the
    format is copied. *)
Definition decimal (n : nat) : string := NilZero.string_of_uint (Nat.to_uint n).

Definition two_digits (n : nat) : string :=
  if n <? 10 then "0" ++ decimal n else decimal n.

Definition render (dt : datetime) (d : ascii) : string :=
  if Ascii.eqb d "Y" then decimal (year dt)
  else if Ascii.eqb d "m" then two_digits (month dt)
  else if Ascii.eqb d "d" then two_digits (day dt)
  else if Ascii.eqb d "H" then two_digits (hour dt)
  else if Ascii.eqb d "M" then two_digits (minute dt)
  else if Ascii.eqb d "S" then two_digits (second dt)
  else String "%" (String d EmptyString).

Fixpoint strftime (dt : datetime) (format : string) : string :=
  match format with
  | EmptyString => EmptyString
  | String "%" (String d rest) => render dt d ++ strftime dt rest
  | String c rest => String c (strftime dt rest)
  end.

End Py.

(** ** The class [ReolinkVideo]: filename handling *)

Definition REOLINK_TIMESTAMP_FORMAT : string := "%Y%m%d%H%M%S".
Definition FRIENDLY_TIMESTAMP_FORMAT : string := "%Y-%m-%d %H-%M-%S".

(** [VALID_DETECTION_LABELS = os.environ["VALID_DETECTION_LABELS"].rsplit(", ")],
    evaluated once, when the class is created. *)
Definition VALID_DETECTION_LABELS (environ : Py.Environ) : Result (list string) :=
  v <- Py.environ_getitem environ "VALID_DETECTION_LABELS" ;;
  ret (Py.rsplit ", " None v).

(** The [try] block of [split_reolink_filename]. *)
Definition split_reolink_filename_try (filename : string)
  : Result (string * string * Py.datetime) :=
  let filename_parts := Py.rsplit "_" (Some 2) filename in
  camera_name <- Py.getitem filename_parts 0 ;;
  camera_num <- Py.getitem filename_parts 1 ;;
  part2 <- Py.getitem filename_parts 2 ;;
  timestamp <- Py.strptime part2 REOLINK_TIMESTAMP_FORMAT ;;
  ret (camera_name, camera_num, timestamp).

(** The bare [except:] handler: it takes over after any exception of the
    [try] block; an exception of its own propagates. *)
Definition split_reolink_filename_except (environ : Py.Environ)
  : Result (string * string * Py.datetime) :=
  camera_name <- Py.environ_getitem environ "CAMERA_1" ;;
  timestamp <- Py.strptime "20000101010000" REOLINK_TIMESTAMP_FORMAT ;;
  ret (camera_name, "01", timestamp).

Definition split_reolink_filename (environ : Py.Environ) (filename : string)
  : Result (string * string * Py.datetime) :=
  match split_reolink_filename_try filename with
  | inr parsed => ret parsed
  | inl _ => split_reolink_filename_except environ
  end.

(** The instance attributes. *)
Record ReolinkVideo : Type := mk_ReolinkVideo {
  path : string;
  filename : string;
  extension : string;
  camera_name : string;
  camera_num : string;
  timestamp : Py.datetime
}.

Definition __init__ (environ : Py.Environ) (path filename extension : string)
  : Result ReolinkVideo :=
  parsed <- split_reolink_filename environ filename ;;
  let '(camera_name, camera_num, timestamp) := parsed in
  ret (mk_ReolinkVideo path filename extension camera_name camera_num timestamp).

Definition friendly_timestamp (self : ReolinkVideo) : string :=
  Py.strftime (timestamp self) FRIENDLY_TIMESTAMP_FORMAT.

Definition filename_with_ext (self : ReolinkVideo) : string :=
  filename self ++ "." ++ extension self.

Definition full_path (self : ReolinkVideo) : string :=
  Py.os_path_join (path self) (filename_with_ext self).

Definition friendly_filename (self : ReolinkVideo) (extension_arg : option string) : string :=
  let extension :=
    match extension_arg with
    | None => extension self
    | Some e => e
    end in
  friendly_timestamp self ++ " (" ++ camera_name self ++ ")." ++ extension.

(** ** Collaborators *)

(** One entry of [response.detections]: a label, a confidence and an
    axis-aligned box in pixel coordinates. *)
Record DetectedObject : Type := mk_DetectedObject {
  label : string;
  confidence : Q;
  x_min : Z;
  y_min : Z;
  x_max : Z;
  y_max : Z
}.

(** [deepstack_sdk.structs.DetectionResponse]. *)
Record DetectionResponse : Type := mk_DetectionResponse {
  detections : list DetectedObject
}.

(** [deepstack_sdk.Detection], the client object handed to [is_accepted]:
    from an encoded image and a confidence threshold it returns a response
    or raises.  It is a function of its arguments. *)
Record Detection : Type := mk_Detection {
  detectObject : list Byte.byte -> Q -> Result DetectionResponse
}.

(** The part of [cv2] the class uses.  [VideoCapture p] is the sequence of
    frames that successive [read()] calls on the capture of file [p] deliver
    before the first call that reports failure (none when the file cannot be
    opened or decoded); [imencode_jpg] is [cv2.imencode(".jpg", frame)], a
    success flag and a buffer. *)
Class Cv2 : Type := {
  Frame : Type;
  VideoCapture : string -> list Frame;
  imencode_jpg : Frame -> bool * list Byte.byte
}.

(** The plane the boxes and regions live in. *)
Definition Point : Type := (Q * Q)%type.

Definition in_rectangle (minx miny maxx maxy : Z) (p : Point) : Prop :=
  (inject_Z minx <= fst p /\ fst p <= inject_Z maxx /\
   inject_Z miny <= snd p /\ snd p <= inject_Z maxy)%Q.

(** Modelled from the spec: the Geometry Filter is [shapely.geometry]'s
    [box] and [intersects], which are not part of the repository.  Its
    contract in the spec is "a bounding box defined by
    (x_min,y_min,x_max,y_max) with x_min<=x_max and y_min<=y_max, and a
    simple polygon ROI in the same coordinate space; true iff the rectangle
    and polygon share at least one point (boundary-touching counts)".
    [covers g p] says that the point [p] belongs to the closed region [g],
    boundary included. *)
Class Shapely : Type := {
  Polygon : Type;
  covers : Polygon -> Point -> Prop;
  box : Z -> Z -> Z -> Z -> Polygon;
  intersects : Polygon -> Polygon -> bool;
  box_covers : forall minx miny maxx maxy p,
    (minx <= maxx)%Z -> (miny <= maxy)%Z ->
    (covers (box minx miny maxx maxy) p <-> in_rectangle minx miny maxx maxy p);
  intersects_iff : forall a b,
    intersects a b = true <-> exists p, covers a p /\ covers b p
}.

(** ** What a scan does to the outside world *)

Inductive LogRecord : Type :=
| Analysing (name : string)                               (* info *)
| UnableToRead (name : string)                            (* error *)
| Accepted (name : string) (label : string) (confidence : Q)  (* info *)
| Rejected (name : string).                               (* info *)

Inductive Event : Type :=
| EvLog (r : LogRecord)
| EvOpen (file : string)       (* cv2.VideoCapture(file) *)
| EvRead (read_ok : bool)      (* video.read() *)
| EvEncode (index : nat)       (* cv2.imencode on the frame with this index *)
| EvDetect (index : nat)       (* deepstack.detectObject on that frame *)
| EvRelease.                   (* video.release() *)

Definition is_release (e : Event) : bool :=
  match e with EvRelease => true | _ => false end.

Definition is_read_ok (e : Event) : bool :=
  match e with EvRead true => true | _ => false end.

Definition is_read (e : Event) : bool :=
  match e with EvRead _ => true | _ => false end.

Definition detect_index (e : Event) : list nat :=
  match e with EvDetect i => [i] | _ => [] end.

(** How often the stream handle was released. *)
Definition releases (trace : list Event) : nat := List.length (filter is_release trace).

(** How many frames were read from the stream. *)
Definition frames_read (trace : list Event) : nat := List.length (filter is_read_ok trace).

(** How many times [video.read()] was called. *)
Definition read_calls (trace : list Event) : nat := List.length (filter is_read trace).

(** The indices of the frames handed to the detection capability, in order. *)
Definition analysed (trace : list Event) : list nat := flat_map detect_index trace.

(** The indices 1, 16, 31, ...: the first [n] targets of the stride. *)
Definition stride_targets (n : nat) : list nat := map (fun k => 1 + 15 * k) (seq 0 n).

(** ** The class [ReolinkVideo]: detection *)

Section Scan.

Context `{cv2 : Cv2} `{shapely : Shapely}.

(** How a call of [is_accepted] ends. *)
Inductive Outcome : Type :=
| Returned (accepted : bool) (frame : option Frame) (response : option DetectionResponse)
| Raised (e : Exn).

Definition _frame_to_bytes (frame : Frame) : Result (list Byte.byte) :=
  let '(success, im_buffer) := imencode_jpg frame in
  if negb success then raise EncodeFailure
  else ret im_buffer.

Definition _detection_in_roi (detection : DetectedObject) (roi : Polygon) : bool :=
  let object := box (x_min detection) (y_min detection)
                    (x_max detection) (y_max detection) in
  intersects object roi.

(** [labels] is the class attribute [VALID_DETECTION_LABELS]. *)
Definition _is_accepted_detection (labels : list string)
           (detection : DetectedObject) (roi : option Polygon) : bool :=
  if negb (existsb (String.eqb (label detection)) labels) then false
  else match roi with
       | None => true
       | Some roi => _detection_in_roi detection roi
       end.

(** [for detection in response.detections: if ...: return]: the detection
    at which the loop returns, if any. *)
Fixpoint first_accepted (labels : list string) (roi : option Polygon)
         (ds : list DetectedObject) : option DetectedObject :=
  match ds with
  | [] => None
  | detection :: ds' =>
      if _is_accepted_detection labels detection roi then Some detection
      else first_accepted labels roi ds'
  end.

(** One pass through the body of the [while] loop up to the next
    [video.read()]: either the call ends, or the loop goes on with a
    target frame. *)
Inductive Step : Type :=
| Stop (o : Outcome)
| Continue (target_frame : nat).

Definition loop_body (name : string) (labels : list string) (deepstack : Detection)
           (min_confidence : Q) (roi : option Polygon)
           (frame : Frame) (current_frame target_frame : nat) : list Event * Step :=
  if current_frame =? target_frame then
    match _frame_to_bytes frame with
    | inl e => ([EvEncode current_frame], Stop (Raised e))
    | inr image =>
        match detectObject deepstack image min_confidence with
        | inl e => ([EvEncode current_frame; EvDetect current_frame], Stop (Raised e))
        | inr response =>
            match first_accepted labels roi (detections response) with
            | Some detection =>
                ([EvEncode current_frame; EvDetect current_frame;
                  EvLog (Accepted name (label detection) (100 * confidence detection)%Q);
                  EvRelease],
                 Stop (Returned true (Some frame) (Some response)))
            | None =>
                ([EvEncode current_frame; EvDetect current_frame],
                 Continue (target_frame + 15))
            end
        end
    end
  else ([], Continue target_frame).

(** [while read_ok is True], entered with a frame in hand; [pending] are
    the frames the stream still holds.  The code after the loop is the
    branch of the failed read. *)
Fixpoint while_read_ok (name : string) (labels : list string) (deepstack : Detection)
         (min_confidence : Q) (roi : option Polygon)
         (frame : Frame) (pending : list Frame)
         (current_frame target_frame : nat) : list Event * Outcome :=
  match loop_body name labels deepstack min_confidence roi
                  frame current_frame target_frame with
  | (evs, Stop o) => (evs, o)
  | (evs, Continue target_frame') =>
      match pending with
      | [] =>
          ((evs ++ [EvRead false; EvLog (Rejected name); EvRelease])%list,
           Returned false None None)
      | frame' :: pending' =>
          let rest := while_read_ok name labels deepstack min_confidence roi
                                    frame' pending' (S current_frame) target_frame' in
          ((evs ++ EvRead true :: fst rest)%list, snd rest)
      end
  end.

(** What the loop does with a frame that is due: encode it, then ask the
    detection capability. *)
Definition analyse (deepstack : Detection) (min_confidence : Q) (frame : Frame)
  : Result DetectionResponse :=
  image <- _frame_to_bytes frame ;;
  detectObject deepstack image min_confidence.

Definition is_accepted (self : ReolinkVideo) (labels : list string)
           (deepstack : Detection) (min_confidence : Q) (roi : option Polygon)
  : list Event * Outcome :=
  let name := filename_with_ext self in
  let file := Py.os_path_join (path self) name in
  match VideoCapture file with
  | [] =>
      ([EvLog (Analysing name); EvOpen file; EvRead false;
        EvLog (UnableToRead name); EvLog (Rejected name); EvRelease],
       Returned false None None)
  | frame :: pending =>
      let rest := while_read_ok name labels deepstack min_confidence roi
                                frame pending 1 1 in
      (EvLog (Analysing name) :: EvOpen file :: EvRead true :: fst rest, snd rest)
  end.

(** The frames of the clip's file, as the capture delivers them. *)
Definition stream (self : ReolinkVideo) : list Frame := VideoCapture (full_path self).

End Scan.

(** ** The spec's reading of a filename

    The spec describes the filenames that parse as
    [<camera_name>_<camera_num>_<14-digit timestamp>].  These two
    definitions follow its words, to be compared with what
    [split_reolink_filename] does. *)

Fixpoint all_digits (s : string) : bool :=
  match s with
  | EmptyString => true
  | String c s' => Py.digit c && all_digits s'
  end.

Definition valid_14_digit_timestamp (s : string) : bool :=
  (String.length s =? 14) && all_digits s &&
  match Py.datetime_new (Py.int (substring 0 4 s)) (Py.int (substring 4 2 s))
                        (Py.int (substring 6 2 s)) (Py.int (substring 8 2 s))
                        (Py.int (substring 10 2 s)) (Py.int (substring 12 2 s)) with
  | inr _ => true
  | inl _ => false
  end.

Definition spec_parse_failure (filename : string) : bool :=
  match Py.rsplit "_" (Some 2) filename with
  | [_; _; part] => negb (valid_14_digit_timestamp part)
  | _ => true
  end.

Fixpoint has_comma (s : string) : bool :=
  match s with
  | EmptyString => false
  | String c s' => Ascii.eqb c "," || has_comma s'
  end.

(** ** Concrete collaborators

    A small world to run the definitions in: regions that are axis-aligned
    rectangles with integer corners, frames that are numbered, a clip of 40
    frames whose frame 16 shows a person, a clip of 20 frames that shows
    nothing, a clip whose first frame makes the detector fail, a clip whose
    first frame cannot be encoded, and a file that cannot be read. *)

Module Demo.

Definition rect : Type := (Z * Z * Z * Z)%type.

Definition rect_covers (r : rect) (p : Point) : Prop :=
  let '(minx, miny, maxx, maxy) := r in in_rectangle minx miny maxx maxy p.

Definition rect_box (minx miny maxx maxy : Z) : rect := (minx, miny, maxx, maxy).

Definition rect_intersects (a b : rect) : bool :=
  let '(ax0, ay0, ax1, ay1) := a in
  let '(bx0, by0, bx1, by1) := b in
  (Z.max ax0 bx0 <=? Z.min ax1 bx1)%Z && (Z.max ay0 by0 <=? Z.min ay1 by1)%Z.

#[local] Instance rect_shapely : Shapely.
Proof.
  refine {| Polygon := rect; covers := rect_covers;
            box := rect_box; intersects := rect_intersects |}.
  - intros minx miny maxx maxy p _ _. unfold rect_box, rect_covers. tauto.
  - intros [[[ax0 ay0] ax1] ay1] [[[bx0 by0] bx1] by1].
    unfold rect_intersects, rect_covers, in_rectangle.
    rewrite andb_true_iff, !Z.leb_le. split.
    + intros [Hx Hy].
      exists (inject_Z (Z.max ax0 bx0), inject_Z (Z.max ay0 by0)).
      cbn [fst snd]. rewrite <- !Zle_Qle. lia.
    + intros [[px py] [(A1 & A2 & A3 & A4) (B1 & B2 & B3 & B4)]].
      cbn [fst snd] in *.
      assert (inject_Z ax0 <= inject_Z ax1)%Q by lra.
      assert (inject_Z ax0 <= inject_Z bx1)%Q by lra.
      assert (inject_Z bx0 <= inject_Z ax1)%Q by lra.
      assert (inject_Z bx0 <= inject_Z bx1)%Q by lra.
      assert (inject_Z ay0 <= inject_Z ay1)%Q by lra.
      assert (inject_Z ay0 <= inject_Z by1)%Q by lra.
      assert (inject_Z by0 <= inject_Z ay1)%Q by lra.
      assert (inject_Z by0 <= inject_Z by1)%Q by lra.
      rewrite <- !Zle_Qle in *. lia.
Defined.

Definition person : DetectedObject := mk_DetectedObject "person" (9 # 10) 10 10 20 30.
Definition cat : DetectedObject := mk_DetectedObject "cat" (8 # 10) 0 0 5 5.

(** Frames are numbers; the encoded image of frame [n] is [n] bytes long,
    and the empty image cannot be encoded. *)
#[local] Instance numbered_cv2 : Cv2 := {|
  Frame := nat;
  VideoCapture := fun file =>
    if String.eqb file "/clips/Front Door_01_20210511082721.mp4" then seq 1 40
    else if String.eqb file "/clips/quiet.mp4" then seq 101 20
    else if String.eqb file "/clips/broken.mp4" then [200; 201]
    else if String.eqb file "/clips/blank.mp4" then [0; 1]
    else [];
  imencode_jpg := fun frame => (negb (frame =? 0), repeat Byte.x2a frame)
|}.

(** A detector that sees a cat and a person in the image of 16 bytes,
    fails on the image of 200 bytes and sees nothing elsewhere. *)
Definition deepstack : Detection := {|
  detectObject := fun image _ =>
    if List.length image =? 16 then ret (mk_DetectionResponse [cat; person])
    else if List.length image =? 200 then raise (CapabilityError "connection refused")
    else ret (mk_DetectionResponse [])
|}.

Definition labels : list string := ["person"; "car"].

Definition clip : ReolinkVideo :=
  mk_ReolinkVideo "/clips" "Front Door_01_20210511082721" "mp4"
                  "Front Door" "01" (Py.mk_datetime 2021 5 11 8 27 21).
Definition quiet_clip : ReolinkVideo :=
  mk_ReolinkVideo "/clips" "quiet" "mp4" "Yard" "01" (Py.mk_datetime 2000 1 1 1 0 0).
Definition broken_clip : ReolinkVideo :=
  mk_ReolinkVideo "/clips" "broken" "mp4" "Yard" "01" (Py.mk_datetime 2000 1 1 1 0 0).
Definition blank_clip : ReolinkVideo :=
  mk_ReolinkVideo "/clips" "blank" "mp4" "Yard" "01" (Py.mk_datetime 2000 1 1 1 0 0).
Definition missing_clip : ReolinkVideo :=
  mk_ReolinkVideo "/clips" "missing" "mp4" "Yard" "01" (Py.mk_datetime 2000 1 1 1 0 0).

Definition environ : Py.Environ := fun key =>
  if String.eqb key "CAMERA_1" then Some "Yard"
  else if String.eqb key "VALID_DETECTION_LABELS" then Some "person, car"
  else None.

End Demo.

(** ** Moving a clip

    [os.rename(src, dst)] on a POSIX system, for regular files in
    directories that exist and can be written: a file is a path with a
    content; renaming a path that names no file raises [FileNotFoundError];
    otherwise the content is found under [dst] afterwards, in place of
    whatever [dst] named before, and no longer under [src].  Renaming a file
    to itself changes nothing. *)

Inductive OSError : Type :=
| FileNotFoundError (file : string).

Definition FileSystem : Type := string -> option (list Byte.byte).

Definition os_rename (fs : FileSystem) (src dst : string) : OSError + FileSystem :=
  match fs src with
  | None => inl (FileNotFoundError src)
  | Some content =>
      inr (fun file =>
             if String.eqb file dst then Some content
             else if String.eqb file src then None
             else fs file)
  end.

Definition move (self : ReolinkVideo) (fs : FileSystem) (target_path : string)
  : OSError + FileSystem :=
  let target_full_path := Py.os_path_join target_path (friendly_filename self None) in
  os_rename fs (full_path self) target_full_path.

(** ** Vocabulary of the statements about traces *)

(** What a scan still does after it has released the handle for the first
    time. *)
Fixpoint after_release (trace : list Event) : list Event :=
  match trace with
  | [] => []
  | EvRelease :: rest => rest
  | _ :: rest => after_release rest
  end.

(** ** Vocabulary of the statements about filenames *)

(** A Python string is a sequence of Unicode characters; a [string] here
    has one element per character, which is exact for text made of ASCII
    characters.  Beyond ASCII the two differ where [strptime] is concerned:
    its digit class and [int] also take the decimal digits of other
    scripts, which [Py.digit] and [Py.int] do not know.  The statements
    that rest on what [strptime] rejects therefore speak of ASCII text. *)
Fixpoint ascii_only (s : string) : bool :=
  match s with
  | EmptyString => true
  | String c s' => (nat_of_ascii c <? 128) && ascii_only s'
  end.

Fixpoint has_underscore (s : string) : bool :=
  match s with
  | EmptyString => false
  | String c s' => Ascii.eqb c "_" || has_underscore s'
  end.

(** The digits of a 14-digit timestamp, set out as year-month-day
    hour-minute-second. *)
Definition punctuated (ts : string) : string :=
  substring 0 4 ts ++ "-" ++ substring 4 2 ts ++ "-" ++ substring 6 2 ts ++ " " ++
  substring 8 2 ts ++ "-" ++ substring 10 2 ts ++ "-" ++ substring 12 2 ts.

(** The timestamp a 14-digit string stands for. *)
Definition timestamp_of_digits (ts : string) : Py.datetime :=
  Py.mk_datetime (Py.int (substring 0 4 ts)) (Py.int (substring 4 2 ts))
                 (Py.int (substring 6 2 ts)) (Py.int (substring 8 2 ts))
                 (Py.int (substring 10 2 ts)) (Py.int (substring 12 2 ts)).

(** A date and time the [datetime] constructor accepts. *)
Definition valid_datetime (dt : Py.datetime) : Prop :=
  1 <= Py.year dt <= 9999 /\ 1 <= Py.month dt <= 12 /\
  1 <= Py.day dt <= Py.days_in_month (Py.year dt) (Py.month dt) /\
  Py.hour dt <= 23 /\ Py.minute dt <= 59 /\ Py.second dt <= 59.

(** ** Two clips on disk

    Two recordings of the camera "Cam", taken by its channels 01 and 02 in
    the same second, in the directory "/in". *)

Module DemoFiles.

Definition clip_a : ReolinkVideo :=
  mk_ReolinkVideo "/in" "Cam_01_20231224235959" "mp4"
                  "Cam" "01" (Py.mk_datetime 2023 12 24 23 59 59).

Definition clip_b : ReolinkVideo :=
  mk_ReolinkVideo "/in" "Cam_02_20231224235959" "mp4"
                  "Cam" "02" (Py.mk_datetime 2023 12 24 23 59 59).

Definition disk : FileSystem := fun file =>
  if String.eqb file "/in/Cam_01_20231224235959.mp4" then Some [Byte.x01]
  else if String.eqb file "/in/Cam_02_20231224235959.mp4" then Some [Byte.x02]
  else None.

Definition after_first_move : FileSystem :=
  match move clip_a disk "/out" with
  | inr fs => fs
  | inl _ => disk
  end.

Definition after_second_move : FileSystem :=
  match move clip_b after_first_move "/out" with
  | inr fs => fs
  | inl _ => after_first_move
  end.

End DemoFiles.

(** * Filenames *)

(** C8. Parsing "Front Door_01_20210511082721" gives the camera name
    "Front Door", the camera number "01" and the timestamp
    2021-05-11 08:27:21, whatever the environment holds; the clip built from
    it, with any extension [ext], has the friendly name
    "2021-05-11 08-27-21 (Front Door).<ext>", and an extension passed to
    [friendly_filename] takes the place of the clip's own. *)
Theorem front_door_parse_then_render :
  forall (environ : Py.Environ) (path ext : string),
    split_reolink_filename environ "Front Door_01_20210511082721"
    = ret ("Front Door", "01", Py.mk_datetime 2021 5 11 8 27 21) /\
    exists self,
      __init__ environ path "Front Door_01_20210511082721" ext = ret self /\
      friendly_filename self None = "2021-05-11 08-27-21 (Front Door)." ++ ext /\
      forall other, friendly_filename self (Some other)
                    = "2021-05-11 08-27-21 (Front Door)." ++ other.
Proof.
  intros environ path ext. split; [reflexivity|].
  eexists. split; [reflexivity|]. split; [reflexivity|]. intros other. reflexivity.
Qed.

Lemma sentinel_timestamp :
  Py.strptime "20000101010000" REOLINK_TIMESTAMP_FORMAT = ret (Py.mk_datetime 2000 1 1 1 0 0).
Proof. reflexivity. Qed.

Lemma rsplit_nonempty : forall sep maxsplit s, Py.rsplit sep maxsplit s <> [].
Proof.
  intros sep maxsplit s. unfold Py.rsplit.
  destruct (Py.rsplit_scan sep maxsplit s) as [[budget piece] done]. discriminate.
Qed.

Lemma rsplit_scan_budget : forall sep n s,
  exists b, fst (fst (Py.rsplit_scan sep (Some n) s)) = Some b /\
            b + List.length (snd (Py.rsplit_scan sep (Some n) s)) = n.
Proof.
  intros sep n s. induction s as [|c s IH].
  - exists n. cbn. split; [reflexivity | lia].
  - cbn [Py.rsplit_scan].
    destruct (Py.rsplit_scan sep (Some n) s) as [[budget piece] done].
    destruct IH as [b [Hb Hlen]]. cbn [fst snd] in Hb, Hlen. subst budget.
    destruct b as [|b]; cbn [Py.may_split andb].
    + exists 0. cbn [fst snd]. split; [reflexivity | exact Hlen].
    + destruct (prefix sep (String c piece)).
      * exists b. cbn [fst snd Py.one_less pred List.length]. split; [reflexivity | lia].
      * exists (S b). cbn [fst snd]. split; [reflexivity | exact Hlen].
Qed.

(** [rsplit] with [maxsplit = n] gives at most [n + 1] parts. *)
Lemma rsplit_at_most : forall sep n s,
  List.length (Py.rsplit sep (Some n) s) <= S n.
Proof.
  intros sep n s. unfold Py.rsplit.
  destruct (rsplit_scan_budget sep n s) as [b [_ Hlen]].
  destruct (Py.rsplit_scan sep (Some n) s) as [[budget piece] done].
  cbn [snd List.length] in *. lia.
Qed.

(** C7, as the code has it. When the right split of a filename at "_" does
    not give three parts, or the third part is ASCII text that [strptime]
    rejects, and the environment names a default camera,
    [split_reolink_filename] returns that name, the number "01" and the
    timestamp 2000-01-01 01:00:00; it does not raise.  (A third part with
    decimal digits of another script is outside the statement: [strptime]
    reads such digits too.) *)
Theorem fallback_on_rejected_filename :
  forall (environ : Py.Environ) (filename default : string),
    environ "CAMERA_1" = Some default ->
    (List.length (Py.rsplit "_" (Some 2) filename) <> 3 \/
     exists part e, nth_error (Py.rsplit "_" (Some 2) filename) 2 = Some part /\
                    ascii_only part = true /\
                    Py.strptime part REOLINK_TIMESTAMP_FORMAT = inl e) ->
    split_reolink_filename environ filename
    = ret (default, "01", Py.mk_datetime 2000 1 1 1 0 0).
Proof.
  intros environ filename default Henv Hfail.
  assert (Htry : exists e, split_reolink_filename_try filename = inl e).
  { unfold split_reolink_filename_try, Py.getitem.
    pose proof (rsplit_at_most "_" 2 filename) as Hmost.
    destruct (Py.rsplit "_" (Some 2) filename) as [|p0 [|p1 [|p2 [|p3 ps]]]];
      cbn [List.length] in Hmost; try lia;
      try (eexists; reflexivity).
    cbn [nth_error bind ret].
    destruct Hfail as [Hlen | (part & e & Hpart & _ & Hparse)].
    - cbn [List.length] in Hlen. lia.
    - cbn [nth_error] in Hpart. injection Hpart as <-.
      rewrite Hparse. eexists; reflexivity. }
  destruct Htry as [e Htry].
  unfold split_reolink_filename. rewrite Htry.
  unfold split_reolink_filename_except, Py.environ_getitem. rewrite Henv.
  reflexivity.
Qed.

Lemma fallback_on_rejected_filename_witness :
  Demo.environ "CAMERA_1" = Some "Yard" /\
  split_reolink_filename Demo.environ "garbage.mp4"
  = ret ("Yard", "01", Py.mk_datetime 2000 1 1 1 0 0) /\
  split_reolink_filename Demo.environ "Cam_01_20210230010101"
  = ret ("Yard", "01", Py.mk_datetime 2000 1 1 1 0 0).
Proof.
  split; [reflexivity|]. split.
  - apply (fallback_on_rejected_filename Demo.environ "garbage.mp4" "Yard").
    + reflexivity.
    + left. vm_compute. lia.
  - apply (fallback_on_rejected_filename Demo.environ "Cam_01_20210230010101" "Yard").
    + reflexivity.
    + right. exists "20210230010101", (ValueError "day is out of range for month").
      split; [reflexivity|]. split; reflexivity.
Defined.

(** C7 as the spec words it fails: the last part of "Cam_01_2021511827" has
    ten digits, so it is no 14-digit timestamp, yet [strptime] reads it with
    one-digit month, hour, minute and second, and the filename is parsed,
    not replaced by the fallback. *)
Lemma short_timestamp_is_parsed :
  spec_parse_failure "Cam_01_2021511827" = true /\
  split_reolink_filename Demo.environ "Cam_01_2021511827"
  = ret ("Cam", "01", Py.mk_datetime 2021 5 11 8 2 7) /\
  split_reolink_filename Demo.environ "Cam_01_2021511827"
  <> ret ("Yard", "01", Py.mk_datetime 2000 1 1 1 0 0).
Proof.
  split; [reflexivity|]. split; [reflexivity|]. vm_compute. discriminate.
Qed.

(** The handler reads the environment itself: without a default camera the
    fallback raises. *)
Lemma fallback_without_default_camera :
  split_reolink_filename (fun _ => None) "garbage.mp4" = raise (KeyError "CAMERA_1").
Proof. reflexivity. Qed.

(** * The valid labels *)

(** The right-to-left scan for ", " over a label without a comma, over the
    separator, and over a whole joined list. *)

Lemma scan_label : forall l s piece done,
  has_comma l = false ->
  Py.rsplit_scan ", " None s = (None, piece, done) ->
  Py.rsplit_scan ", " None (l ++ s) = (None, l ++ piece, done).
Proof.
  induction l as [|c l IH]; intros s piece done Hl Hs; [exact Hs|].
  cbn in Hl. apply orb_false_iff in Hl as [Hc Hl].
  cbn [append Py.rsplit_scan]. rewrite (IH s piece done Hl Hs).
  cbn [Py.may_split andb]. cbn [prefix].
  destruct (ascii_dec "," c) as [E|E].
  - subst c. discriminate.
  - reflexivity.
Qed.

Lemma scan_separator : forall s piece done,
  Py.rsplit_scan ", " None s = (None, piece, done) ->
  Py.rsplit_scan ", " None (", " ++ s) = (None, EmptyString, piece :: done).
Proof.
  intros s piece done Hs. cbn [append Py.rsplit_scan].
  rewrite Hs. cbn. destruct piece; reflexivity.
Qed.

Lemma append_empty : forall s : string, s ++ "" = s.
Proof. induction s as [|c s IH]; cbn; [reflexivity | now rewrite IH]. Qed.

Lemma scan_joined : forall first others,
  forallb (fun l => negb (has_comma l)) (first :: others) = true ->
  Py.rsplit_scan ", " None (Py.join ", " (first :: others)) = (None, first, others).
Proof.
  intros first others. revert first.
  induction others as [|second others IH]; intros first Hall.
  - cbn in *. rewrite andb_true_r in Hall. apply negb_true_iff in Hall.
    rewrite <- (append_empty first) at 1.
    rewrite (scan_label first "" "" [] Hall eq_refl).
    now rewrite append_empty.
  - cbn [forallb] in Hall. apply andb_true_iff in Hall as [Hfirst Hrest].
    apply negb_true_iff in Hfirst.
    change (Py.join ", " (first :: second :: others))
      with (first ++ ", " ++ Py.join ", " (second :: others)).
    rewrite (scan_label first _ "" (second :: others) Hfirst).
    + now rewrite append_empty.
    + apply scan_separator. apply IH. exact Hrest.
Qed.

(** C9, as the code has it. The separator of the class attribute is a comma
    followed by one blank: when the environment holds a non-empty list of
    labels, none of which contains a comma, joined by ", ", the valid labels
    are exactly the labels of that list, each an element of its own. *)
Theorem valid_labels_of_separated_list :
  forall (environ : Py.Environ) (labels : list string),
    labels <> [] ->
    forallb (fun l => negb (has_comma l)) labels = true ->
    environ "VALID_DETECTION_LABELS" = Some (Py.join ", " labels) ->
    VALID_DETECTION_LABELS environ = ret labels.
Proof.
  intros environ labels Hne Hall Henv.
  unfold VALID_DETECTION_LABELS, Py.environ_getitem. rewrite Henv. cbn [bind ret].
  destruct labels as [|first others]; [congruence|].
  unfold Py.rsplit. rewrite (scan_joined first others Hall). reflexivity.
Qed.

Lemma valid_labels_of_separated_list_witness :
  VALID_DETECTION_LABELS Demo.environ = ret ["person"; "car"].
Proof.
  apply (valid_labels_of_separated_list Demo.environ ["person"; "car"]).
  - discriminate.
  - reflexivity.
  - reflexivity.
Defined.

(** C9 as the spec words it fails: "person,car" is a comma-separated list of
    the labels "person" and "car", but it holds no ", ", so the class
    attribute is the one label "person,car" and "person" is not valid. *)
Lemma comma_alone_does_not_separate :
  let environ : Py.Environ := fun key =>
    if String.eqb key "VALID_DETECTION_LABELS" then Some (Py.join "," ["person"; "car"])
    else None in
  Py.join "," ["person"; "car"] = "person,car" /\
  VALID_DETECTION_LABELS environ = ret ["person,car"] /\
  ~ In "person" ["person,car"].
Proof.
  cbv zeta. split; [reflexivity|]. split; [reflexivity|].
  intros [H|[]]. discriminate.
Qed.

(** * The classifier *)

Section Classifier.

Context `{shapely : Shapely}.

Lemma label_test : forall (labels : list string) (l : string),
  existsb (String.eqb l) labels = true <-> In l labels.
Proof.
  intros labels l. rewrite existsb_exists. split.
  - intros [x [Hin Heq]]. apply String.eqb_eq in Heq. now subst x.
  - intros Hin. exists l. split; [exact Hin | apply String.eqb_refl].
Qed.

Lemma first_accepted_none : forall labels roi ds,
  first_accepted labels roi ds = None <->
  forall d, In d ds -> _is_accepted_detection labels d roi = false.
Proof.
  intros labels roi ds. induction ds as [|d ds IH]; cbn [first_accepted].
  - split; [intros _ d [] | reflexivity].
  - destruct (_is_accepted_detection labels d roi) eqn:Hd.
    + split; [discriminate|]. intros Hall.
      rewrite (Hall d (or_introl eq_refl)) in Hd. discriminate.
    + rewrite IH. split.
      * intros Hall x [<-|Hx]; [exact Hd | now apply Hall].
      * intros Hall x Hx. apply Hall. now right.
Qed.

Lemma first_accepted_split : forall labels roi before d after,
  (forall x, In x before -> _is_accepted_detection labels x roi = false) ->
  _is_accepted_detection labels d roi = true ->
  first_accepted labels roi (before ++ d :: after) = Some d.
Proof.
  intros labels roi before d after. induction before as [|b before IH];
    intros Hbefore Hd; cbn [app first_accepted].
  - now rewrite Hd.
  - rewrite (Hbefore b (or_introl eq_refl)). apply IH; [|exact Hd].
    intros x Hx. apply Hbefore. now right.
Qed.

Lemma first_accepted_some : forall labels roi ds d,
  first_accepted labels roi ds = Some d ->
  In d ds /\ _is_accepted_detection labels d roi = true.
Proof.
  intros labels roi ds d. induction ds as [|x ds IH]; cbn [first_accepted].
  - discriminate.
  - destruct (_is_accepted_detection labels x roi) eqn:Hx.
    + intros [= <-]. split; [now left | exact Hx].
    + intros H. destruct (IH H) as [Hin Hacc]. split; [now right | exact Hacc].
Qed.

End Classifier.

(** C2. [_is_accepted_detection] answers true exactly when the label of the
    detection is one of the valid labels (the same string, letter case
    included) and, if a region is given, shapely's [intersects] holds
    between the box built from the four coordinates of the detection and
    the region; for a box with x_min <= x_max and y_min <= y_max that is,
    when the closed rectangle and the region have a point in common.  So
    without a region the answer is the membership of the label, and a label
    that is not valid is rejected whatever the region. *)
Theorem accepted_detection_iff :
  forall `{shapely : Shapely} (labels : list string)
         (detection : DetectedObject) (roi : option Polygon),
    (_is_accepted_detection labels detection roi = true <->
     In (label detection) labels /\
     forall region, roi = Some region ->
       intersects (box (x_min detection) (y_min detection)
                       (x_max detection) (y_max detection)) region = true) /\
    ((x_min detection <= x_max detection)%Z ->
     (y_min detection <= y_max detection)%Z ->
     (_is_accepted_detection labels detection roi = true <->
      In (label detection) labels /\
      forall region, roi = Some region ->
        exists p, in_rectangle (x_min detection) (y_min detection)
                               (x_max detection) (y_max detection) p /\
                  covers region p)) /\
    (_is_accepted_detection labels detection None = true <->
     In (label detection) labels) /\
    (~ In (label detection) labels ->
     _is_accepted_detection labels detection roi = false).
Proof.
  intros shapely labels detection roi.
  assert (Hmain : forall r, _is_accepted_detection labels detection r = true <->
            In (label detection) labels /\
            forall region, r = Some region ->
              intersects (box (x_min detection) (y_min detection)
                              (x_max detection) (y_max detection)) region = true).
  { intros r. unfold _is_accepted_detection, _detection_in_roi.
    destruct (existsb (String.eqb (label detection)) labels) eqn:Hl; cbn [negb].
    - apply label_test in Hl. destruct r as [region|].
      + split.
        * intros H. split; [exact Hl|]. now intros ? [= <-].
        * intros [_ H]. now apply H.
      + split; [|reflexivity]. intros _. split; [exact Hl|]. discriminate.
    - split; [discriminate|]. intros [Hin _].
      apply label_test in Hin. congruence. }
  split; [apply Hmain|]. split; [|split].
  - intros Hx Hy. rewrite Hmain. split; intros [Hin Hroi]; (split; [exact Hin|]);
      intros region Hregion; specialize (Hroi region Hregion).
    + apply intersects_iff in Hroi as [p [Hb Hr]]. exists p. split; [|exact Hr].
      now apply (box_covers _ _ _ _ p Hx Hy).
    + destruct Hroi as [p [Hb Hr]]. apply intersects_iff. exists p. split; [|exact Hr].
      now apply (box_covers _ _ _ _ p Hx Hy).
  - rewrite Hmain. split; [tauto|]. intros Hin. split; [exact Hin|]. discriminate.
  - intros Hnot. apply not_true_is_false. intros E.
    apply Hmain in E. tauto.
Qed.

(** The match of labels is exact: "Person" is not the valid label "person". *)
Example label_match_is_case_sensitive :
  @_is_accepted_detection Demo.rect_shapely ["person"]
    (mk_DetectedObject "Person" (9 # 10) 0 0 1 1) None = false /\
  @_is_accepted_detection Demo.rect_shapely ["person"]
    (mk_DetectedObject "person" (9 # 10) 0 0 1 1) None = true.
Proof. split; reflexivity. Qed.

(** C5. For a detection whose box has x_min <= x_max and y_min <= y_max, a
    box of no width or no height included, [_detection_in_roi] answers true
    exactly when some point of the plane lies both in the closed rectangle
    of the box and in the region.  So a box that meets the region in
    boundary points only is inside, and a box that has no point in common
    with the region is not. *)
Theorem detection_in_roi_iff_shared_point :
  forall `{shapely : Shapely} (detection : DetectedObject) (roi : Polygon),
    (x_min detection <= x_max detection)%Z ->
    (y_min detection <= y_max detection)%Z ->
    let in_box := in_rectangle (x_min detection) (y_min detection)
                               (x_max detection) (y_max detection) in
    (_detection_in_roi detection roi = true <->
     exists p, in_box p /\ covers roi p) /\
    ((forall p, in_box p -> ~ covers roi p) ->
     _detection_in_roi detection roi = false).
Proof.
  intros shapely detection roi Hx Hy in_box.
  assert (Hiff : _detection_in_roi detection roi = true <->
                 exists p, in_box p /\ covers roi p).
  { unfold _detection_in_roi. rewrite intersects_iff. split.
    - intros [p [Hb Hr]]. exists p. split; [|exact Hr].
      now apply (box_covers _ _ _ _ p Hx Hy).
    - intros [p [Hb Hr]]. exists p. split; [|exact Hr].
      now apply (box_covers _ _ _ _ p Hx Hy). }
  split; [exact Hiff|].
  intros Hout. apply not_true_is_false. intros E.
  apply Hiff in E. destruct E as [p [Hb Hr]]. now destruct (Hout p Hb).
Qed.

(** The box (10,10)-(20,30) and the region (20,30)-(40,40) have the corner
    (20,30) in common and nothing else. *)
Lemma detection_in_roi_iff_shared_point_witness :
  (10 <= 20)%Z /\ (10 <= 30)%Z /\
  (@_detection_in_roi Demo.rect_shapely Demo.person (20, 30, 40, 40)%Z = true <->
   exists p, in_rectangle 10 10 20 30 p /\ Demo.rect_covers (20, 30, 40, 40)%Z p).
Proof.
  split; [lia|]. split; [lia|].
  apply (@detection_in_roi_iff_shared_point Demo.rect_shapely Demo.person
           (20, 30, 40, 40)%Z); simpl; lia.
Defined.

Example touching_box_is_inside :
  @_detection_in_roi Demo.rect_shapely Demo.person (20, 30, 40, 40)%Z = true /\
  @_detection_in_roi Demo.rect_shapely Demo.person (21, 30, 40, 40)%Z = false /\
  @_detection_in_roi Demo.rect_shapely
    (mk_DetectedObject "person" (9 # 10) 25 35 25 35) (20, 30, 40, 40)%Z = true.
Proof. repeat split; reflexivity. Qed.

(** * The scan loop *)

Lemma stride_step : forall tgt n,
  tgt :: map (fun k => tgt + 15 + 15 * k) (seq 0 n)
  = map (fun k => tgt + 15 * k) (seq 0 (S n)).
Proof.
  intros tgt n. change (seq 0 (S n)) with (0 :: seq 1 n). cbn [map].
  f_equal; [lia|].
  rewrite <- seq_shift, map_map. apply map_ext. intros k. lia.
Qed.

Section Loop.

Context `{cv2 : Cv2} `{shapely : Shapely}.
Variables (name : string) (labels : list string) (deepstack : Detection)
          (min_confidence : Q) (roi : option Polygon).

Local Abbreviation body := (loop_body name labels deepstack min_confidence roi).
Local Abbreviation loop := (while_read_ok name labels deepstack min_confidence roi).
Local Abbreviation analysis := (analyse deepstack min_confidence).
Local Abbreviation pick := (first_accepted labels roi).

(** The five ways through the body of the loop. *)
Lemma loop_body_cases : forall frame cur tgt,
  (cur <> tgt /\ body frame cur tgt = ([], Continue tgt)) \/
  (cur = tgt /\ analysis frame = inl EncodeFailure /\
   body frame cur tgt = ([EvEncode cur], Stop (Raised EncodeFailure))) \/
  (cur = tgt /\ exists e, analysis frame = inl e /\
   body frame cur tgt = ([EvEncode cur; EvDetect cur], Stop (Raised e))) \/
  (cur = tgt /\ exists response detection,
     analysis frame = inr response /\
     pick (detections response) = Some detection /\
     body frame cur tgt
     = ([EvEncode cur; EvDetect cur;
         EvLog (Accepted name (label detection) (100 * confidence detection)%Q);
         EvRelease],
        Stop (Returned true (Some frame) (Some response)))) \/
  (cur = tgt /\ exists response,
     analysis frame = inr response /\
     pick (detections response) = None /\
     body frame cur tgt = ([EvEncode cur; EvDetect cur], Continue (tgt + 15))).
Proof.
  intros frame cur tgt. unfold loop_body, analyse, _frame_to_bytes.
  destruct (Nat.eqb_spec cur tgt) as [E|E]; [right | left; now split].
  destruct (imencode_jpg frame) as [[|] image]; cbn [negb bind raise ret].
  - destruct (detectObject deepstack image min_confidence) as [e|response].
    + right. left. split; [exact E|]. now exists e.
    + destruct (pick (detections response)) as [detection|] eqn:Hpick.
      * right. right. left. split; [exact E|]. now exists response, detection.
      * right. right. right. split; [exact E|]. now exists response.
  - left. now repeat split.
Qed.

Ltac body_cases frame cur tgt :=
  let Hb := fresh "Hbody" in
  let Hc := fresh "Hcur" in
  let e := fresh "err" in
  let r := fresh "resp" in
  let d := fresh "det" in
  let Ha := fresh "Hana" in
  let Hp := fresh "Hpk" in
  destruct (loop_body_cases frame cur tgt)
    as [(Hc & Hb) | [(Hc & Ha & Hb) | [(Hc & e & Ha & Hb) |
        [(Hc & r & d & Ha & Hp & Hb) | (Hc & r & Ha & Hp & Hb)]]]];
  rewrite Hb; clear Hb.

Ltac unfold_observers :=
  unfold releases, frames_read, read_calls, analysed in *.

(** The handle is released once on a return and not at all on a raise. *)
Lemma loop_releases : forall pending frame cur tgt,
  releases (fst (loop frame pending cur tgt))
  = match snd (loop frame pending cur tgt) with
    | Returned _ _ _ => 1
    | Raised _ => 0
    end.
Proof.
  unfold_observers.
  induction pending as [|frame' pending IH]; intros frame cur tgt;
    cbn [while_read_ok]; body_cases frame cur tgt; cbn; try reflexivity;
    apply IH.
Qed.

(** A normal return is either an acceptance, with a frame of the stream
    and the response the detector gave for it, or a rejection with
    neither. *)
Lemma loop_returns : forall pending frame cur tgt accepted f r,
  snd (loop frame pending cur tgt) = Returned accepted f r ->
  (accepted = true /\
   exists fr response detection,
     f = Some fr /\ r = Some response /\ In fr (frame :: pending) /\
     analysis fr = inr response /\ pick (detections response) = Some detection) \/
  (accepted = false /\ f = None /\ r = None).
Proof.
  induction pending as [|frame' pending IH]; intros frame cur tgt accepted f r;
    cbn [while_read_ok]; body_cases frame cur tgt; cbn [fst snd];
    intros Hrun; try discriminate;
    try (injection Hrun as <- <- <-);
    try (right; now repeat split);
    try (left; split; [reflexivity|]; do 3 eexists;
         repeat split; [now left | eassumption | eassumption]).
  all: destruct (IH _ _ _ _ _ _ Hrun)
      as [(-> & fr & response & detection & -> & -> & Hin & Ha & Hp) | Hrej];
    [left; split; [reflexivity|]; exists fr, response, detection;
     repeat split; [now right | exact Ha | exact Hp]
    | right; exact Hrej].
Qed.

(** The stride.  The loop is at frame [cur] with target [tgt], [g] frames
    ahead.  The frames it hands to the detector are [tgt], [tgt + 15], and
    so on without a gap; where it stops fixes how many they are. *)
Lemma loop_stride : forall pending frame cur tgt g,
  tgt = cur + g -> g <= 14 ->
  exists n,
    analysed (fst (loop frame pending cur tgt))
    = map (fun k => tgt + 15 * k) (seq 0 n) /\
    frames_read (fst (loop frame pending cur tgt)) <= List.length pending /\
    match snd (loop frame pending cur tgt) with
    | Returned false _ _ =>
        frames_read (fst (loop frame pending cur tgt)) = List.length pending /\
        List.length pending < g + 15 * n /\
        g + 15 * n <= List.length pending + 15
    | Returned true _ _ =>
        1 <= n /\
        frames_read (fst (loop frame pending cur tgt)) + 15 = g + 15 * n
    | Raised _ =>
        frames_read (fst (loop frame pending cur tgt)) + 15 = g + 15 * n \/
        frames_read (fst (loop frame pending cur tgt)) = g + 15 * n
    end.
Proof.
  unfold_observers.
  induction pending as [|frame' pending IH]; intros frame cur tgt g Htgt Hg;
    cbn [while_read_ok]; body_cases frame cur tgt.
  - exists 0. cbn. repeat split; lia.
  - exists 0. cbn. repeat split; try lia.
  - exists 1. cbn. repeat split; try lia. f_equal. lia.
  - exists 1. cbn. repeat split; try lia. f_equal. lia.
  - exists 1. cbn. repeat split; try lia. f_equal. lia.
  - destruct (IH frame' (S cur) tgt (pred g) ltac:(lia) ltac:(lia))
      as (n & Han & Hle & Hout).
    exists n. cbn [fst snd app flat_map detect_index filter is_read_ok List.length].
    split; [exact Han|]. split; [lia|].
    destruct (snd (loop frame' pending (S cur) tgt)) as [[|] ? ?|]; lia.
  - exists 0. cbn. repeat split; try lia.
  - exists 1. cbn. repeat split; try lia. f_equal. lia.
  - exists 1. cbn. repeat split; try lia. f_equal. lia.
  - destruct (IH frame' (S cur) (tgt + 15) 14 ltac:(lia) ltac:(lia))
      as (n & Han & Hle & Hout).
    exists (S n). cbn [fst snd app flat_map detect_index filter is_read_ok List.length].
    split; [|split; [lia|]].
    + rewrite Han, Hcur. apply stride_step.
    + destruct (snd (loop frame' pending (S cur) (tgt + 15))) as [[|] ? ?|]; lia.
Qed.

(** Rejection: when every frame that falls due is analysed without error
    and none of its detections is accepted, the loop runs to the end of
    the stream. *)
Lemma loop_rejects : forall pending frame cur tgt g,
  tgt = cur + g ->
  (forall j f, nth_error (frame :: pending) (g + 15 * j) = Some f ->
     exists r, analysis f = inr r /\ pick (detections r) = None) ->
  snd (loop frame pending cur tgt) = Returned false None None.
Proof.
  induction pending as [|frame' pending IH]; intros frame cur tgt g Htgt Hquiet;
    cbn [while_read_ok]; body_cases frame cur tgt; cbn [fst snd];
    try reflexivity;
    try (assert (g = 0) by lia; subst g;
         destruct (Hquiet 0 frame eq_refl) as (r & Hr & Hp); congruence).
  - apply (IH frame' (S cur) tgt (pred g)); [lia|].
    intros j f Hf. apply (Hquiet j f).
    replace (g + 15 * j) with (S (pred g + 15 * j)) by lia. exact Hf.
  - apply (IH frame' (S cur) (tgt + 15) 14); [lia|].
    intros j f Hf. apply (Hquiet (S j) f).
    replace (g + 15 * S j) with (S (14 + 15 * j)) by lia. exact Hf.
Qed.

(** Acceptance: when the frame that falls due in [m]-th place is the
    first whose response holds an accepted detection, the loop returns
    there, having read no frame beyond it. *)
Lemma loop_accepts : forall pending frame cur tgt g m fr response detection,
  tgt = cur + g ->
  nth_error (frame :: pending) (g + 15 * m) = Some fr ->
  analysis fr = inr response ->
  pick (detections response) = Some detection ->
  (forall j, j < m ->
     exists f r, nth_error (frame :: pending) (g + 15 * j) = Some f /\
                 analysis f = inr r /\ pick (detections r) = None) ->
  snd (loop frame pending cur tgt) = Returned true (Some fr) (Some response) /\
  analysed (fst (loop frame pending cur tgt))
  = map (fun k => tgt + 15 * k) (seq 0 (S m)) /\
  frames_read (fst (loop frame pending cur tgt)) = g + 15 * m /\
  read_calls (fst (loop frame pending cur tgt)) = g + 15 * m /\
  releases (fst (loop frame pending cur tgt)) = 1 /\
  In (EvLog (Accepted name (label detection) (100 * confidence detection)%Q))
     (fst (loop frame pending cur tgt)).
Proof.
  unfold_observers.
  induction pending as [|frame' pending IH];
    intros frame cur tgt g m fr response detection Htgt Hfr Hresp Hpick Hearlier.
  all: assert (Hhere : g = 0 ->
         (m = 0 /\ fr = frame) \/
         (exists r, analysis frame = inr r /\ pick (detections r) = None /\ 0 < m)).
  1, 3: intros ->; destruct m as [|m];
    [left; split; [reflexivity|]; cbn in Hfr; congruence
    | right; destruct (Hearlier 0 ltac:(lia)) as (f & r & Hf & Hr & Hp);
      cbn in Hf; injection Hf as <-; exists r; repeat split; [exact Hr | exact Hp | lia]].
  all: cbn [while_read_ok]; body_cases frame cur tgt; cbn [fst snd].
  all: try (exfalso; destruct (Hhere ltac:(lia)) as [[-> ->] | (r & Hr & Hp & Hm)];
            congruence).
  - exfalso. destruct g as [|g]; [lia|].
    change (S g + 15 * m) with (S (g + 15 * m)) in Hfr.
    cbn [nth_error] in Hfr. rewrite nth_error_nil in Hfr. discriminate.
  - destruct (Hhere ltac:(lia)) as [[-> ->] | (r & Hr & Hp & Hm)]; [|congruence].
    assert (g = 0) by lia. subst g.
    assert (resp = response) by congruence. subst resp.
    assert (det = detection) by congruence. subst det.
    cbn. repeat split; try reflexivity.
    + f_equal. lia.
    + right. right. now left.
  - exfalso. destruct (Hhere ltac:(lia)) as [[-> ->] | (r & Hr & Hp & Hm)];
      [congruence|].
    assert (g = 0) by lia. subst g. destruct m as [|m]; [lia|].
    replace (0 + 15 * S m) with (S (14 + 15 * m)) in Hfr by lia.
    cbn [nth_error] in Hfr. rewrite nth_error_nil in Hfr. discriminate.
  - destruct (IH frame' (S cur) tgt (pred g) m fr response detection)
      as (Hout & Han & Hreads & Hcalls & Hrel & Hlog);
      [lia | | exact Hresp | exact Hpick | |].
    + replace (g + 15 * m) with (S (pred g + 15 * m)) in Hfr by lia. exact Hfr.
    + intros j Hj. destruct (Hearlier j Hj) as (f & r & Hf & Hr & Hp).
      exists f, r. repeat split; [|exact Hr | exact Hp].
      replace (g + 15 * j) with (S (pred g + 15 * j)) in Hf by lia. exact Hf.
    + cbn [app flat_map detect_index filter is_read_ok is_read is_release List.length].
      repeat split; [exact Hout | exact Han | lia | lia | exact Hrel | now right].
  - destruct (Hhere ltac:(lia)) as [[-> ->] | (r & Hr & Hp & Hm)]; [|congruence].
    assert (g = 0) by lia. subst g.
    assert (resp = response) by congruence. subst resp.
    assert (det = detection) by congruence. subst det.
    cbn. repeat split; try reflexivity.
    + f_equal. lia.
    + right. right. now left.
  - destruct (Hhere ltac:(lia)) as [[-> ->] | (r & Hr & Hp & Hm)]; [congruence|].
    assert (g = 0) by lia. subst g. destruct m as [|m]; [lia|].
    destruct (IH frame' (S cur) (tgt + 15) 14 m fr response detection)
      as (Hout & Han & Hreads & Hcalls & Hrel & Hlog);
      [lia | | exact Hresp | exact Hpick | |].
    + replace (0 + 15 * S m) with (S (14 + 15 * m)) in Hfr by lia. exact Hfr.
    + intros j Hj. destruct (Hearlier (S j) ltac:(lia)) as (f & r' & Hf & Hr' & Hp').
      exists f, r'. repeat split; [|exact Hr' | exact Hp'].
      replace (0 + 15 * S j) with (S (14 + 15 * j)) in Hf by lia. exact Hf.
    + cbn [app flat_map detect_index filter is_read_ok is_read is_release List.length].
      repeat split; [exact Hout | | lia | lia | exact Hrel | now do 3 right].
      rewrite Han, Hcur. apply stride_step.
Qed.

End Loop.

(** * [is_accepted] *)

Section IsAccepted.

Context `{cv2 : Cv2} `{shapely : Shapely}.
Variables (self : ReolinkVideo) (labels : list string) (deepstack : Detection)
          (min_confidence : Q) (roi : option Polygon).

Local Abbreviation run := (is_accepted self labels deepstack min_confidence roi).

(** Every return path releases the handle once; a raise leaves it open. *)
Lemma releases_by_outcome :
  releases (fst run) = match snd run with
                       | Returned _ _ _ => 1
                       | Raised _ => 0
                       end.
Proof.
  unfold is_accepted. fold (full_path self). fold (stream self).
  destruct (stream self) as [|frame pending]; [reflexivity|].
  cbn [fst snd].
  rewrite <- (loop_releases (filename_with_ext self) labels deepstack
                            min_confidence roi pending frame 1 1).
  reflexivity.
Qed.

Lemma is_accepted_unfold :
  run = match stream self with
        | [] =>
            ([EvLog (Analysing (filename_with_ext self)); EvOpen (full_path self);
              EvRead false; EvLog (UnableToRead (filename_with_ext self));
              EvLog (Rejected (filename_with_ext self)); EvRelease],
             Returned false None None)
        | frame :: pending =>
            let rest := while_read_ok (filename_with_ext self) labels deepstack
                                      min_confidence roi frame pending 1 1 in
            (EvLog (Analysing (filename_with_ext self)) :: EvOpen (full_path self)
               :: EvRead true :: fst rest, snd rest)
        end.
Proof. reflexivity. Qed.

(** C4. Let the frame with index [1 + 15 * m] be analysed to a response
    whose detections are [before], then [detection], then [after], where
    [detection] is accepted and nothing in [before] is, and let every
    earlier frame that falls due be analysed to a response without an
    accepted detection.  Then the scan returns true with that frame and
    the whole response, [after] included; the detector was called on the
    frames 1, 16, ... up to that frame, no frame behind it was read, the
    handle was released once, and the log names [detection]. *)
Theorem scan_stops_at_first_acceptance :
  forall (m : nat) (frame : Frame) (response : DetectionResponse)
         (before after : list DetectedObject) (detection : DetectedObject),
    nth_error (stream self) (15 * m) = Some frame ->
    analyse deepstack min_confidence frame = inr response ->
    detections response = (before ++ detection :: after)%list ->
    (forall d, In d before -> _is_accepted_detection labels d roi = false) ->
    _is_accepted_detection labels detection roi = true ->
    (forall j, j < m ->
       exists f r,
         nth_error (stream self) (15 * j) = Some f /\
         analyse deepstack min_confidence f = inr r /\
         forall d, In d (detections r) -> _is_accepted_detection labels d roi = false) ->
    snd run = Returned true (Some frame) (Some response) /\
    analysed (fst run) = stride_targets (S m) /\
    frames_read (fst run) = 1 + 15 * m /\
    read_calls (fst run) = 1 + 15 * m /\
    releases (fst run) = 1 /\
    In (EvLog (Accepted (filename_with_ext self) (label detection)
                        (100 * confidence detection)%Q))
       (fst run).
Proof.
  intros m frame response before after detection Hframe Hresp Hsplit Hbefore Hacc Hearlier.
  assert (Hpick : first_accepted labels roi (detections response) = Some detection).
  { rewrite Hsplit. now apply first_accepted_split. }
  rewrite is_accepted_unfold.
  destruct (stream self) as [|frame0 pending] eqn:Hstream.
  - destruct (15 * m); discriminate.
  - destruct (loop_accepts (filename_with_ext self) labels deepstack min_confidence
                           roi pending frame0 1 1 0 m frame response detection)
      as (Hout & Han & Hreads & Hcalls & Hrel & Hlog);
      [reflexivity | exact Hframe | exact Hresp | exact Hpick | |].
    + intros j Hj. destruct (Hearlier j Hj) as (f & r & Hf & Hr & Hnone).
      exists f, r. repeat split; [exact Hf | exact Hr |].
      now apply first_accepted_none.
    + cbv zeta. cbn [fst snd].
      unfold analysed, frames_read, read_calls, releases, stride_targets in *.
      cbn [flat_map detect_index filter is_read_ok is_read is_release app List.length].
      repeat split; [exact Hout | exact Han | lia | lia | exact Hrel | now do 3 right].
Qed.

(** C6. When every frame that falls due is analysed without a raise to a
    response that holds no accepted detection (nothing falls due in a
    stream whose first frame cannot be read), the scan returns
    (false, None, None) and releases the handle; when the first frame
    cannot be read, this is logged as an error and nothing is raised. *)
Theorem rejection_returns_no_frame :
  (forall j f,
     nth_error (stream self) (15 * j) = Some f ->
     exists r, analyse deepstack min_confidence f = inr r /\
               forall d, In d (detections r) -> _is_accepted_detection labels d roi = false) ->
  snd run = Returned false None None /\
  releases (fst run) = 1 /\
  (stream self = [] ->
   fst run = [EvLog (Analysing (filename_with_ext self)); EvOpen (full_path self);
              EvRead false; EvLog (UnableToRead (filename_with_ext self));
              EvLog (Rejected (filename_with_ext self)); EvRelease]).
Proof.
  intros Hquiet.
  assert (Hout : snd run = Returned false None None).
  { rewrite is_accepted_unfold.
    destruct (stream self) as [|frame pending]; [reflexivity|].
    cbv zeta. cbn [snd].
    apply (loop_rejects _ _ _ _ _ pending frame 1 1 0 eq_refl).
    intros j f Hf. destruct (Hquiet j f Hf) as (r & Hr & Hnone).
    exists r. split; [exact Hr|]. now apply first_accepted_none. }
  split; [exact Hout|]. split.
  - rewrite releases_by_outcome, Hout. reflexivity.
  - intros Hempty. rewrite is_accepted_unfold, Hempty. reflexivity.
Qed.

(** C10. When the scan returns, a true flag comes with a frame of the
    stream and the response the detector gave for that frame, which holds
    an accepted detection, and a false flag comes with neither a frame nor
    a response. *)
Theorem returned_triple_is_well_formed :
  forall (accepted : bool) (f : option Frame) (r : option DetectionResponse),
    snd run = Returned accepted f r ->
    (accepted = true ->
     exists frame response detection,
       f = Some frame /\ r = Some response /\
       In frame (stream self) /\
       analyse deepstack min_confidence frame = inr response /\
       In detection (detections response) /\
       _is_accepted_detection labels detection roi = true) /\
    (accepted = false -> f = None /\ r = None).
Proof.
  intros accepted f r. rewrite is_accepted_unfold.
  destruct (stream self) as [|frame0 pending].
  - cbn [snd]. intros [= <- <- <-]. split; [discriminate | now split].
  - cbv zeta. cbn [snd]. intros Hrun.
    destruct (loop_returns _ _ _ _ _ _ _ _ _ _ _ _ Hrun)
      as [(-> & fr & response & detection & -> & -> & Hin & Ha & Hp)
         | (-> & -> & ->)].
    + split; [|discriminate]. intros _.
      destruct (first_accepted_some _ _ _ _ Hp) as [Hd Hacc].
      exists fr, response, detection. now repeat split.
    + split; [discriminate | now split].
Qed.

End IsAccepted.

(** * The scan on concrete clips *)

Section OnDemoClips.

Import Demo.

Local Abbreviation scan clip roi :=
  (@is_accepted numbered_cv2 rect_shapely clip labels deepstack (1 # 2) roi).


(** C1. The handle is not released when the scan ends in an exception.
    On a clip whose first frame makes the detection capability fail, and
    on a clip whose first frame cannot be encoded, the exception
    propagates and [video.release()] was not called; only the three
    returning paths, taken here by three other clips, release the handle,
    once each. *)
Theorem raise_leaves_stream_unreleased :
  (snd (scan broken_clip None) = Raised (CapabilityError "connection refused") /\
   releases (fst (scan broken_clip None)) = 0) /\
  (snd (scan blank_clip None) = Raised EncodeFailure /\
   releases (fst (scan blank_clip None)) = 0) /\
  (releases (fst (scan clip None)) = 1 /\
   releases (fst (scan quiet_clip None)) = 1 /\
   releases (fst (scan missing_clip None)) = 1).
Proof. repeat split; reflexivity. Qed.

Lemma scan_stops_at_first_acceptance_witness :
  snd (scan clip None)
  = @Returned numbered_cv2 true (Some 16) (Some (mk_DetectionResponse [cat; person])) /\
  analysed (fst (scan clip None)) = [1; 16] /\
  frames_read (fst (scan clip None)) = 16 /\
  read_calls (fst (scan clip None)) = 16 /\
  releases (fst (scan clip None)) = 1 /\
  In (EvLog (Accepted "Front Door_01_20210511082721.mp4" "person" (100 * (9 # 10))%Q))
     (fst (scan clip None)).
Proof.
  apply (@scan_stops_at_first_acceptance numbered_cv2 rect_shapely clip labels
           deepstack (1 # 2) None 1 16 (mk_DetectionResponse [cat; person])
           [cat] [] person).
  - reflexivity.
  - reflexivity.
  - reflexivity.
  - intros d [<- | []]. reflexivity.
  - reflexivity.
  - intros j Hj. assert (j = 0) by lia. subst j.
    exists 1, (mk_DetectionResponse []).
    split; [reflexivity|]. split; [reflexivity|]. intros d [].
Defined.

Lemma rejection_returns_no_frame_witness :
  snd (scan quiet_clip None) = Returned false None None /\
  releases (fst (scan quiet_clip None)) = 1.
Proof.
  refine (let H := @rejection_returns_no_frame numbered_cv2 rect_shapely quiet_clip
                     labels deepstack (1 # 2) None _ in
          conj (proj1 H) (proj1 (proj2 H))).
  intros j f Hf. exists (mk_DetectionResponse []).
  destruct j as [|[|j]].
  - injection Hf as <-. split; [reflexivity | intros d []].
  - injection Hf as <-. split; [reflexivity | intros d []].
  - exfalso. assert (Hlen : 15 * S (S j) < 20).
    { change 20 with (List.length (@stream numbered_cv2 quiet_clip)).
      apply nth_error_Some. rewrite Hf. discriminate. }
    lia.
Defined.

Lemma returned_triple_is_well_formed_witness :
  exists frame response detection,
    Some 16 = Some frame /\
    Some (mk_DetectionResponse [cat; person]) = Some response /\
    In frame (@stream numbered_cv2 clip) /\
    @analyse numbered_cv2 deepstack (1 # 2) frame = inr response /\
    In detection (detections response) /\
    @_is_accepted_detection rect_shapely labels detection None = true.
Proof.
  apply (@returned_triple_is_well_formed numbered_cv2 rect_shapely clip labels
           deepstack (1 # 2) None true (Some 16)
           (Some (mk_DetectionResponse [cat; person])));
    reflexivity.
Defined.

(** The clip of the spec's end-to-end example: 40 frames, a person in
    frame 16, no region. *)
Example forty_frames_person_in_frame_16 :
  scan clip None
  = ([EvLog (Analysing "Front Door_01_20210511082721.mp4");
      EvOpen "/clips/Front Door_01_20210511082721.mp4";
      EvRead true; EvEncode 1; EvDetect 1]
     ++ repeat (EvRead true) 15
     ++ [EvEncode 16; EvDetect 16;
         EvLog (Accepted "Front Door_01_20210511082721.mp4" "person" (100 * (9 # 10))%Q);
         EvRelease],
     @Returned numbered_cv2 true (Some 16) (Some (mk_DetectionResponse [cat; person])))%list.
Proof. reflexivity. Qed.

(** A file that delivers no frame: the error is logged, the scan rejects. *)
Example unreadable_file_is_rejected :
  scan missing_clip None
  = ([EvLog (Analysing "missing.mp4"); EvOpen "/clips/missing.mp4"; EvRead false;
      EvLog (UnableToRead "missing.mp4"); EvLog (Rejected "missing.mp4"); EvRelease],
     Returned false None None).
Proof. reflexivity. Qed.

End OnDemoClips.


(** * More on filenames *)

Lemma digit_cases : forall c,
  Py.digit c = true ->
  In c ["0"; "1"; "2"; "3"; "4"; "5"; "6"; "7"; "8"; "9"]%char.
Proof.
  intros [[|] [|] [|] [|] [|] [|] [|] [|]] H; vm_compute in H; try discriminate H;
    cbn [In]; repeat (first [left; reflexivity | right]).
Qed.

Lemma datetime_new_inr : forall y mo d h mi s dt,
  Py.datetime_new y mo d h mi s = inr dt <->
  dt = Py.mk_datetime y mo d h mi s /\ valid_datetime (Py.mk_datetime y mo d h mi s).
Proof.
  intros y mo d h mi s dt. unfold Py.datetime_new, valid_datetime, raise, ret.
  cbn [Py.year Py.month Py.day Py.hour Py.minute Py.second]. split.
  - intros H.
    repeat match type of H with
           | context [if negb ?c then _ else _] =>
               destruct c eqn:?; cbn [negb] in H; [|discriminate H]
           end.
    injection H as <-.
    repeat match goal with
           | E : (_ && _) = true |- _ => apply andb_true_iff in E; destruct E
           | E : (_ <=? _) = true |- _ => apply Nat.leb_le in E
           end.
    repeat split; assumption.
  - intros [-> (Hy & Hmo & Hd & Hh & Hmi & Hs)].
    repeat match goal with
           | |- context [if negb ?c then _ else _] =>
               replace c with true
                 by (symmetry; rewrite ?andb_true_iff, ?Nat.leb_le; tauto);
               cbn [negb]
           end.
    reflexivity.
Qed.

(** Two digits within the range of a directive are matched by the first
    alternative of its group that fits, whole, when the rest of the
    expression matches what follows. *)
Ltac two_digit_group Ha Hb Hrange Hrest :=
  apply digit_cases in Ha; apply digit_cases in Hb; cbn [In] in Ha, Hb;
  repeat (destruct Ha as [<- | Ha]; [|]); try contradiction;
  repeat (destruct Hb as [<- | Hb]; [|]); try contradiction;
  vm_compute in Hrange;
  first [ exfalso; lia
        | cbn [Py.regex_match Py.first_some]; cbv -[Py.regex_match];
          rewrite Hrest; reflexivity ].

Lemma month_group : forall a b alts gs rest found remains,
  Py.digit a = true -> Py.digit b = true ->
  1 <= Py.int (String a (String b "")) <= 12 ->
  Py.directive_regex "m" = Some alts ->
  Py.regex_match gs rest = Some (found, remains) ->
  Py.regex_match (("m"%char, alts) :: gs) (String a (String b rest))
  = Some (("m"%char, String a (String b "")) :: found, remains).
Proof.
  intros a b alts gs rest found remains Ha Hb Hrange [= <-] Hrest.
  two_digit_group Ha Hb Hrange Hrest.
Qed.

Lemma day_group : forall a b alts gs rest found remains,
  Py.digit a = true -> Py.digit b = true ->
  1 <= Py.int (String a (String b "")) <= 31 ->
  Py.directive_regex "d" = Some alts ->
  Py.regex_match gs rest = Some (found, remains) ->
  Py.regex_match (("d"%char, alts) :: gs) (String a (String b rest))
  = Some (("d"%char, String a (String b "")) :: found, remains).
Proof.
  intros a b alts gs rest found remains Ha Hb Hrange [= <-] Hrest.
  two_digit_group Ha Hb Hrange Hrest.
Qed.

Lemma hour_group : forall a b alts gs rest found remains,
  Py.digit a = true -> Py.digit b = true ->
  Py.int (String a (String b "")) <= 23 ->
  Py.directive_regex "H" = Some alts ->
  Py.regex_match gs rest = Some (found, remains) ->
  Py.regex_match (("H"%char, alts) :: gs) (String a (String b rest))
  = Some (("H"%char, String a (String b "")) :: found, remains).
Proof.
  intros a b alts gs rest found remains Ha Hb Hrange [= <-] Hrest.
  two_digit_group Ha Hb Hrange Hrest.
Qed.

Lemma minute_group : forall a b alts gs rest found remains,
  Py.digit a = true -> Py.digit b = true ->
  Py.int (String a (String b "")) <= 59 ->
  Py.directive_regex "M" = Some alts ->
  Py.regex_match gs rest = Some (found, remains) ->
  Py.regex_match (("M"%char, alts) :: gs) (String a (String b rest))
  = Some (("M"%char, String a (String b "")) :: found, remains).
Proof.
  intros a b alts gs rest found remains Ha Hb Hrange [= <-] Hrest.
  two_digit_group Ha Hb Hrange Hrest.
Qed.

Lemma second_group : forall a b alts gs rest found remains,
  Py.digit a = true -> Py.digit b = true ->
  Py.int (String a (String b "")) <= 59 ->
  Py.directive_regex "S" = Some alts ->
  Py.regex_match gs rest = Some (found, remains) ->
  Py.regex_match (("S"%char, alts) :: gs) (String a (String b rest))
  = Some (("S"%char, String a (String b "")) :: found, remains).
Proof.
  intros a b alts gs rest found remains Ha Hb Hrange [= <-] Hrest.
  two_digit_group Ha Hb Hrange Hrest.
Qed.

Lemma year_group : forall a b c d alts gs rest found remains,
  Py.digit a = true -> Py.digit b = true -> Py.digit c = true -> Py.digit d = true ->
  Py.directive_regex "Y" = Some alts ->
  Py.regex_match gs rest = Some (found, remains) ->
  Py.regex_match (("Y"%char, alts) :: gs) (String a (String b (String c (String d rest))))
  = Some (("Y"%char, String a (String b (String c (String d "")))) :: found, remains).
Proof.
  intros a b c d alts gs rest found remains Ha Hb Hc Hd [= <-] Hrest.
  cbn [Py.regex_match Py.first_some Py.match_seq].
  rewrite Ha, Hb, Hc, Hd, Hrest. reflexivity.
Qed.

Lemma days_in_month_at_most_31 : forall y m, Py.days_in_month y m <= 31.
Proof.
  intros y m. unfold Py.days_in_month.
  do 12 (destruct m as [|m]; [try lia; destruct (Py.is_leap y); lia|]). lia.
Qed.

Lemma reolink_format_groups :
  exists ya ma da Ha Ma Sa,
    Py.directive_regex "Y" = Some ya /\ Py.directive_regex "m" = Some ma /\
    Py.directive_regex "d" = Some da /\ Py.directive_regex "H" = Some Ha /\
    Py.directive_regex "M" = Some Ma /\ Py.directive_regex "S" = Some Sa /\
    Py.format_groups REOLINK_TIMESTAMP_FORMAT
    = Some [("Y"%char, ya); ("m"%char, ma); ("d"%char, da);
            ("H"%char, Ha); ("M"%char, Ma); ("S"%char, Sa)].
Proof. do 6 eexists. repeat split; reflexivity. Qed.

Lemma valid_14_digits_shape : forall ts,
  valid_14_digit_timestamp ts = true ->
  exists c0 c1 c2 c3 c4 c5 c6 c7 c8 c9 c10 c11 c12 c13,
    ts = String c0 (String c1 (String c2 (String c3 (String c4 (String c5
         (String c6 (String c7 (String c8 (String c9 (String c10 (String c11
         (String c12 (String c13 ""))))))))))))) /\
    Forall (fun c => Py.digit c = true)
           [c0; c1; c2; c3; c4; c5; c6; c7; c8; c9; c10; c11; c12; c13] /\
    valid_datetime (timestamp_of_digits ts).
Proof.
  intros ts H. unfold valid_14_digit_timestamp in H.
  apply andb_true_iff in H as [H Hdate]. apply andb_true_iff in H as [Hlen Hdigits].
  apply Nat.eqb_eq in Hlen.
  do 14 (destruct ts as [|? ts]; [discriminate Hlen|]).
  destruct ts; [|discriminate Hlen].
  do 14 eexists. split; [reflexivity|]. split.
  - cbn [all_digits] in Hdigits.
    repeat (apply andb_true_iff in Hdigits as [? Hdigits]).
    repeat constructor; assumption.
  - unfold timestamp_of_digits.
    match type of Hdate with
    | context [Py.datetime_new ?y ?mo ?d ?h ?mi ?s] =>
        destruct (Py.datetime_new y mo d h mi s) as [e|dt] eqn:E; [discriminate|]
    end.
    apply datetime_new_inr in E. apply E.
Qed.

(** A well-formed 14-digit timestamp is read digit by digit: four for the
    year, two for each of month, day, hour, minute and second. *)
Lemma strptime_well_formed : forall ts,
  valid_14_digit_timestamp ts = true ->
  Py.strptime ts REOLINK_TIMESTAMP_FORMAT = ret (timestamp_of_digits ts).
Proof.
  intros ts H.
  destruct (valid_14_digits_shape ts H)
    as (c0 & c1 & c2 & c3 & c4 & c5 & c6 & c7 & c8 & c9 & c10 & c11 & c12 & c13
        & -> & Hd & Hv).
  repeat match goal with
         | F : Forall _ (_ :: _) |- _ => inversion F; subst; clear F
         | F : Forall _ [] |- _ => clear F
         end.
  destruct reolink_format_groups
    as (ya & ma & da & Ha & Ma & Sa & EY & Em & Ed & EH & EM & ES & Egroups).
  pose proof Hv as (Hy & Hmo & Hday & Hh & Hmi & Hs).
  unfold timestamp_of_digits in Hy, Hmo, Hday, Hh, Hmi, Hs.
  cbn [Py.year Py.month Py.day Py.hour Py.minute Py.second substring]
    in Hy, Hmo, Hday, Hh, Hmi, Hs.
  pose proof (days_in_month_at_most_31
                (Py.int (String c0 (String c1 (String c2 (String c3 "")))))
                (Py.int (String c4 (String c5 "")))) as H31.
  unfold Py.strptime. rewrite Egroups.
  erewrite year_group; [| assumption .. | exact EY |].
  2: { eapply month_group; [assumption | assumption | lia | exact Em |].
       eapply day_group; [assumption | assumption | lia | exact Ed |].
       eapply hour_group; [assumption | assumption | lia | exact EH |].
       eapply minute_group; [assumption | assumption | lia | exact EM |].
       eapply second_group; [assumption | assumption | lia | exact ES |].
       reflexivity. }
  unfold ret.
  apply datetime_new_inr. split; [reflexivity | exact Hv].
Qed.

Lemma append_assoc : forall a b c : string, (a ++ b) ++ c = a ++ b ++ c.
Proof. induction a as [|x a IH]; intros b c; cbn; [reflexivity | now rewrite IH]. Qed.

Lemma prefix_skip : forall sep s,
  prefix sep s = true -> s = sep ++ Py.skip (String.length sep) s.
Proof.
  induction sep as [|a sep IH]; intros s H; [reflexivity|].
  destruct s as [|b s]; [discriminate H|].
  cbn [prefix] in H. destruct (ascii_dec a b) as [<-|]; [|discriminate H].
  cbn [String.length Py.skip append]. now rewrite <- (IH s H).
Qed.

(** What follows the first piece in a joined list depends on the other
    pieces only. *)
Lemma join_cons : forall sep done,
  exists tail, forall piece, Py.join sep (piece :: done) = piece ++ tail.
Proof.
  intros sep [|next done].
  - exists "". intros piece. cbn. now rewrite append_empty.
  - exists (sep ++ Py.join sep (next :: done)). intros piece. reflexivity.
Qed.

(** The pieces of a split, joined by the separator, are the string. *)
Lemma rsplit_scan_join : forall sep maxsplit s,
  Py.join sep (snd (fst (Py.rsplit_scan sep maxsplit s))
               :: snd (Py.rsplit_scan sep maxsplit s)) = s.
Proof.
  intros sep maxsplit s. induction s as [|c s IH]; [reflexivity|].
  cbn [Py.rsplit_scan].
  destruct (Py.rsplit_scan sep maxsplit s) as [[budget piece] done].
  cbn [fst snd] in IH.
  destruct (join_cons sep done) as [tail Htail].
  destruct (Py.may_split budget && prefix sep (String c piece)) eqn:E; cbn [fst snd].
  - apply andb_true_iff in E as [_ E]. apply prefix_skip in E.
    change (Py.join sep ("" :: Py.skip (String.length sep) (String c piece) :: done))
      with (sep ++ Py.join sep (Py.skip (String.length sep) (String c piece) :: done)).
    rewrite Htail, <- append_assoc, <- E. cbn [append].
    now rewrite <- Htail, IH.
  - rewrite Htail. cbn [append]. now rewrite <- Htail, IH.
Qed.

Lemma rsplit_join : forall sep maxsplit s,
  Py.join sep (Py.rsplit sep maxsplit s) = s.
Proof.
  intros sep maxsplit s. unfold Py.rsplit.
  pose proof (rsplit_scan_join sep maxsplit s) as H.
  destruct (Py.rsplit_scan sep maxsplit s) as [[budget piece] done]. exact H.
Qed.

(** The scan for "_" over a text without one, over a text when no split is
    left, and over the separator when one is. *)
Lemma underscore_scan_plain : forall l maxsplit s budget piece done,
  has_underscore l = false ->
  Py.rsplit_scan "_" maxsplit s = (budget, piece, done) ->
  Py.rsplit_scan "_" maxsplit (l ++ s) = (budget, l ++ piece, done).
Proof.
  induction l as [|c l IH]; intros maxsplit s budget piece done Hl Hs; [exact Hs|].
  cbn [has_underscore] in Hl. apply orb_false_iff in Hl as [Hc Hl].
  cbn [append Py.rsplit_scan]. rewrite (IH maxsplit s budget piece done Hl Hs).
  cbn [prefix]. destruct (ascii_dec "_" c) as [<-|]; [discriminate Hc|].
  now rewrite andb_false_r.
Qed.

Lemma underscore_scan_spent : forall l maxsplit s piece done,
  Py.rsplit_scan "_" maxsplit s = (Some 0, piece, done) ->
  Py.rsplit_scan "_" maxsplit (l ++ s) = (Some 0, l ++ piece, done).
Proof.
  induction l as [|c l IH]; intros maxsplit s piece done Hs; [exact Hs|].
  cbn [append Py.rsplit_scan]. rewrite (IH maxsplit s piece done Hs). reflexivity.
Qed.

Lemma underscore_scan_cut : forall maxsplit s budget piece done,
  Py.rsplit_scan "_" maxsplit s = (Some (S budget), piece, done) ->
  Py.rsplit_scan "_" maxsplit ("_" ++ s) = (Some budget, "", piece :: done).
Proof.
  intros maxsplit s budget piece done Hs. cbn [append Py.rsplit_scan].
  rewrite Hs. cbn. destruct piece; reflexivity.
Qed.

(** A name, a number and a last part, where only the name may hold
    underscores, are what the split at the last two underscores gives. *)
Lemma rsplit_name_num_part : forall name num part,
  has_underscore num = false -> has_underscore part = false ->
  Py.rsplit "_" (Some 2) (name ++ "_" ++ num ++ "_" ++ part) = [name; num; part].
Proof.
  intros name num part Hnum Hpart. unfold Py.rsplit.
  assert (H1 : Py.rsplit_scan "_" (Some 2) part = (Some 2, part, [])).
  { rewrite <- (append_empty part) at 1.
    rewrite (underscore_scan_plain part (Some 2) "" (Some 2) "" [] Hpart eq_refl).
    now rewrite append_empty. }
  apply underscore_scan_cut in H1.
  apply (underscore_scan_plain num _ _ _ _ _ Hnum) in H1.
  rewrite append_empty in H1.
  apply underscore_scan_cut in H1.
  apply (underscore_scan_spent name) in H1.
  rewrite append_empty in H1.
  rewrite H1. reflexivity.
Qed.

Lemma digits_hold_no_underscore : forall s,
  all_digits s = true -> has_underscore s = false.
Proof.
  induction s as [|c s IH]; [reflexivity|].
  cbn [all_digits has_underscore]. intros H. apply andb_true_iff in H as [Hc Hs].
  rewrite (IH Hs), orb_false_r.
  destruct (Ascii.eqb_spec c "_") as [->|]; [discriminate Hc | reflexivity].
Qed.

Lemma split_of_parsed_part : forall environ name num part t,
  has_underscore num = false -> has_underscore part = false ->
  Py.strptime part REOLINK_TIMESTAMP_FORMAT = ret t ->
  split_reolink_filename environ (name ++ "_" ++ num ++ "_" ++ part)
  = ret (name, num, t).
Proof.
  intros environ name num part t Hnum Hpart Hparse.
  unfold split_reolink_filename, split_reolink_filename_try.
  rewrite (rsplit_name_num_part name num part Hnum Hpart).
  cbn [Py.getitem nth_error bind ret]. rewrite Hparse. reflexivity.
Qed.

Lemma valid_14_all_digits : forall ts,
  valid_14_digit_timestamp ts = true -> all_digits ts = true.
Proof.
  intros ts H. unfold valid_14_digit_timestamp in H.
  apply andb_true_iff in H as [H _]. now apply andb_true_iff in H as [_ H].
Qed.

Lemma two_digits_of_int : forall a b,
  Py.digit a = true -> Py.digit b = true ->
  Py.two_digits (Py.int (String a (String b ""))) = String a (String b "").
Proof.
  intros a b Ha Hb.
  apply digit_cases in Ha; apply digit_cases in Hb; cbn [In] in Ha, Hb.
  repeat (destruct Ha as [<- | Ha]; [|]); try contradiction;
    repeat (destruct Hb as [<- | Hb]; [|]); try contradiction; reflexivity.
Qed.

(** [int] reads a string of digits as the decimal numeral it is, and
    [decimal] writes a numeral without leading zero back as it was. *)
Lemma int_acc_of_uint : forall s d,
  NilEmpty.uint_of_string s = Some d ->
  forall acc, Py.int_acc acc s = Nat.of_uint_acc d acc.
Proof.
  induction s as [|c s IH]; intros d H acc.
  - injection H as <-. reflexivity.
  - cbn [NilEmpty.uint_of_string] in H.
    destruct (NilEmpty.uint_of_string s) as [d'|]; [|discriminate H].
    apply uint_of_char_spec in H.
    repeat (destruct H as [[-> ->] | H]; [|]); try destruct H as [-> ->];
      cbn [Py.int_acc Nat.of_uint_acc];
      (replace (Py.digit _) with true by reflexivity);
      rewrite (IH d' eq_refl); f_equal;
      rewrite Nat.tail_mul_spec;
      match goal with
      | |- context [nat_of_ascii ?c - 48] =>
          let v := eval vm_compute in (nat_of_ascii c - 48) in
          change (nat_of_ascii c - 48) with v
      end; lia.
Qed.

Lemma all_digits_uint : forall s,
  all_digits s = true -> exists d, NilEmpty.uint_of_string s = Some d.
Proof.
  induction s as [|c s IH]; intros H; [now exists Decimal.Nil|].
  cbn [all_digits] in H. apply andb_true_iff in H as [Hc Hs].
  destruct (IH Hs) as [d Hd]. cbn [NilEmpty.uint_of_string]. rewrite Hd.
  apply digit_cases in Hc. cbn [In] in Hc.
  repeat (destruct Hc as [<- | Hc]; [eexists; reflexivity|]). contradiction.
Qed.

Lemma decimal_of_digits : forall s,
  all_digits s = true -> s <> "" -> prefix "0" s = false ->
  Py.decimal (Py.int s) = s.
Proof.
  intros s Hdigits Hne Hnz.
  destruct (all_digits_uint s Hdigits) as [d Hd].
  unfold Py.decimal, Py.int. rewrite (int_acc_of_uint s d Hd).
  change (Nat.of_uint_acc d 0) with (Nat.of_uint d).
  rewrite DecimalNat.Unsigned.to_of.
  pose proof (NilEmpty.sus s d Hd) as Hs.
  destruct s as [|c s]; [contradiction|].
  cbn [NilEmpty.uint_of_string] in Hd.
  destruct (NilEmpty.uint_of_string s) as [d'|]; [|discriminate Hd].
  apply uint_of_char_spec in Hd.
  destruct Hd as [[-> ->] | Hd]; [destruct s; cbn in Hnz; discriminate Hnz|].
  repeat (destruct Hd as [[-> ->] | Hd]; [exact Hs|]).
  destruct Hd as [-> ->]. exact Hs.
Qed.

Lemma decimal_of_int : forall a b c d,
  Py.digit a = true -> Py.digit b = true -> Py.digit c = true -> Py.digit d = true ->
  a <> "0"%char ->
  Py.decimal (Py.int (String a (String b (String c (String d "")))))
  = String a (String b (String c (String d ""))).
Proof.
  intros a b c d Ha Hb Hc Hd Hnz. apply decimal_of_digits.
  - cbn [all_digits]. now rewrite Ha, Hb, Hc, Hd.
  - discriminate.
  - cbn [prefix]. destruct (ascii_dec "0" a) as [<-|]; [contradiction | reflexivity].
Qed.

(** The friendly timestamp of a well-formed 14-digit timestamp from the
    year 1000 on is made of the same digits. *)
Lemma strftime_of_digits : forall ts,
  valid_14_digit_timestamp ts = true -> prefix "0" ts = false ->
  Py.strftime (timestamp_of_digits ts) FRIENDLY_TIMESTAMP_FORMAT = punctuated ts.
Proof.
  intros ts H Hnz.
  destruct (valid_14_digits_shape ts H)
    as (c0 & c1 & c2 & c3 & c4 & c5 & c6 & c7 & c8 & c9 & c10 & c11 & c12 & c13
        & -> & Hd & _).
  repeat match goal with
         | F : Forall _ (_ :: _) |- _ => inversion F; subst; clear F
         | F : Forall _ [] |- _ => clear F
         end.
  assert (Hc0 : c0 <> "0"%char).
  { intros ->. cbn in Hnz. discriminate Hnz. }
  unfold punctuated, timestamp_of_digits, FRIENDLY_TIMESTAMP_FORMAT.
  cbn [substring Py.strftime].
  change (Py.render ?dt "Y") with (Py.decimal (Py.year dt)).
  change (Py.render ?dt "m") with (Py.two_digits (Py.month dt)).
  change (Py.render ?dt "d") with (Py.two_digits (Py.day dt)).
  change (Py.render ?dt "H") with (Py.two_digits (Py.hour dt)).
  change (Py.render ?dt "M") with (Py.two_digits (Py.minute dt)).
  change (Py.render ?dt "S") with (Py.two_digits (Py.second dt)).
  cbn [Py.year Py.month Py.day Py.hour Py.minute Py.second].
  rewrite decimal_of_int by assumption.
  rewrite !two_digits_of_int by assumption.
  reflexivity.
Qed.

(** X1. A filename made of a camera name, an underscore, a camera number
    without underscore, an underscore and a well-formed 14-digit timestamp
    is parsed into exactly these parts, the timestamp digit by digit.  The
    camera name may hold underscores of its own, and the environment is not
    consulted. *)
Theorem well_formed_filename_is_parsed :
  forall (environ : Py.Environ) (name num ts : string),
    has_underscore num = false ->
    valid_14_digit_timestamp ts = true ->
    split_reolink_filename environ (name ++ "_" ++ num ++ "_" ++ ts)
    = ret (name, num, timestamp_of_digits ts).
Proof.
  intros environ name num ts Hnum Hts.
  apply split_of_parsed_part.
  - exact Hnum.
  - apply digits_hold_no_underscore. now apply valid_14_all_digits.
  - now apply strptime_well_formed.
Qed.

Lemma well_formed_filename_is_parsed_witness :
  split_reolink_filename (fun _ => None) "Back_Yard_02_20231224235959"
  = ret ("Back_Yard", "02", Py.mk_datetime 2023 12 24 23 59 59).
Proof.
  apply (well_formed_filename_is_parsed (fun _ => None) "Back_Yard" "02" "20231224235959");
    reflexivity.
Defined.

(** X2. The clip built from such a filename, with a year from 1000 on, has
    the friendly name made of the digits of the timestamp, set out as
    "YYYY-MM-DD HH-MM-SS", the camera name in brackets and the extension;
    the camera number does not appear in it. *)
Theorem friendly_name_of_well_formed_clip :
  forall (environ : Py.Environ) (path ext name num ts : string),
    has_underscore num = false ->
    valid_14_digit_timestamp ts = true ->
    prefix "0" ts = false ->
    exists self,
      __init__ environ path (name ++ "_" ++ num ++ "_" ++ ts) ext = ret self /\
      camera_name self = name /\ camera_num self = num /\
      friendly_filename self None = punctuated ts ++ " (" ++ name ++ ")." ++ ext.
Proof.
  intros environ path ext name num ts Hnum Hts Hyear.
  eexists. unfold __init__.
  rewrite (split_of_parsed_part environ name num ts (timestamp_of_digits ts) Hnum).
  - cbn [bind ret]. split; [reflexivity|]. split; [reflexivity|]. split; [reflexivity|].
    unfold friendly_filename, friendly_timestamp.
    cbn [timestamp camera_name extension].
    now rewrite (strftime_of_digits ts Hts Hyear).
  - apply digits_hold_no_underscore. now apply valid_14_all_digits.
  - now apply strptime_well_formed.
Qed.

Lemma friendly_name_of_well_formed_clip_witness :
  exists self,
    __init__ (fun _ => None) "/in" "Back_Yard_02_20231224235959" "mp4" = ret self /\
    camera_name self = "Back_Yard" /\ camera_num self = "02" /\
    friendly_filename self None = "2023-12-24 23-59-59 (Back_Yard).mp4".
Proof.
  apply (friendly_name_of_well_formed_clip (fun _ => None) "/in" "mp4"
           "Back_Yard" "02" "20231224235959"); reflexivity.
Defined.

Lemma strptime_valid : forall s format dt,
  Py.strptime s format = inr dt -> valid_datetime dt.
Proof.
  intros s format dt. unfold Py.strptime, raise.
  destruct (Py.format_groups format) as [groups|]; [|discriminate].
  destruct (Py.regex_match groups s) as [[found [|c rest]]|]; try discriminate.
  intros H. apply datetime_new_inr in H as [-> Hv]. exact Hv.
Qed.

Lemma split_try_parts : forall filename n c t,
  split_reolink_filename_try filename = inr (n, c, t) ->
  exists part,
    filename = n ++ "_" ++ c ++ "_" ++ part /\
    Py.strptime part REOLINK_TIMESTAMP_FORMAT = ret t.
Proof.
  intros filename n c t. unfold split_reolink_filename_try, Py.getitem.
  pose proof (rsplit_join "_" (Some 2) filename) as Hjoin.
  pose proof (rsplit_at_most "_" 2 filename) as Hmost.
  destruct (Py.rsplit "_" (Some 2) filename) as [|p0 [|p1 [|p2 [|p3 ps]]]];
    cbn [List.length] in Hmost; try lia;
    cbn [nth_error bind ret raise]; try discriminate.
  destruct (Py.strptime p2 REOLINK_TIMESTAMP_FORMAT) as [e|t'] eqn:Hparse;
    cbn [bind]; [discriminate|].
  intros [= <- <- <-]. exists p2. split; [|exact Hparse].
  rewrite <- Hjoin. reflexivity.
Qed.

(** X3. For a filename of ASCII characters, what [split_reolink_filename]
    returns is either read off the filename, which is then the camera name,
    "_", the camera number, "_" and a part that [strptime] reads as the
    timestamp, or it is the fallback: the default camera of the
    environment, "01" and 2000-01-01 01:00:00.  Either way the timestamp is
    a date and time that exists. *)
Theorem parsed_parts_come_from_the_filename :
  forall (environ : Py.Environ) (filename n c : string) (t : Py.datetime),
    ascii_only filename = true ->
    split_reolink_filename environ filename = ret (n, c, t) ->
    ((exists part,
        filename = n ++ "_" ++ c ++ "_" ++ part /\
        Py.strptime part REOLINK_TIMESTAMP_FORMAT = ret t) \/
     (environ "CAMERA_1" = Some n /\ c = "01" /\ t = Py.mk_datetime 2000 1 1 1 0 0)) /\
    valid_datetime t.
Proof.
  intros environ filename n c t _. unfold split_reolink_filename.
  destruct (split_reolink_filename_try filename) as [e|[[n' c'] t']] eqn:Htry.
  - unfold split_reolink_filename_except, Py.environ_getitem.
    rewrite sentinel_timestamp.
    destruct (environ "CAMERA_1") as [d|]; cbn [bind ret raise]; [|discriminate].
    intros [= <- <- <-]. split.
    + right. now repeat split.
    + apply (proj1 (datetime_new_inr 2000 1 1 1 0 0 _) eq_refl).
  - intros [= <- <- <-].
    destruct (split_try_parts filename n' c' t' Htry) as [part [Hname Hparse]].
    split.
    + left. now exists part.
    + now apply (strptime_valid part REOLINK_TIMESTAMP_FORMAT).
Qed.

Lemma parsed_parts_come_from_the_filename_witness :
  ((exists part,
      "Cam_01_2021511827" = "Cam" ++ "_" ++ "01" ++ "_" ++ part /\
      Py.strptime part REOLINK_TIMESTAMP_FORMAT = ret (Py.mk_datetime 2021 5 11 8 2 7)) \/
   (Demo.environ "CAMERA_1" = Some "Cam" /\ "01" = "01" /\
    Py.mk_datetime 2021 5 11 8 2 7 = Py.mk_datetime 2000 1 1 1 0 0)) /\
  valid_datetime (Py.mk_datetime 2021 5 11 8 2 7).
Proof.
  apply (parsed_parts_come_from_the_filename Demo.environ "Cam_01_2021511827").
  - reflexivity.
  - reflexivity.
Defined.

(** The [try] block fails exactly on the filenames whose right split does
    not give three parts or whose third part [strptime] rejects. *)
Lemma try_fails_iff : forall file,
  (exists e, split_reolink_filename_try file = inl e) <->
  (List.length (Py.rsplit "_" (Some 2) file) <> 3 \/
   exists part e, nth_error (Py.rsplit "_" (Some 2) file) 2 = Some part /\
                  Py.strptime part REOLINK_TIMESTAMP_FORMAT = inl e).
Proof.
  intros file. unfold split_reolink_filename_try, Py.getitem.
  pose proof (rsplit_at_most "_" 2 file) as Hmost.
  destruct (Py.rsplit "_" (Some 2) file) as [|p0 [|p1 [|p2 [|p3 ps]]]];
    cbn [List.length] in Hmost; try lia; cbn [nth_error bind ret raise List.length].
  1-3: split; [intros _; left; lia | intros _; eexists; reflexivity].
  split.
  - intros [e He]. right.
    destruct (Py.strptime p2 REOLINK_TIMESTAMP_FORMAT) as [e'|t] eqn:Hparse;
      cbn [bind] in He; [|discriminate He].
    now exists p2, e'.
  - intros [Hlen | (part & e & [= <-] & Hparse)]; [lia|].
    rewrite Hparse. eexists. reflexivity.
Qed.

(** X4. For a filename of ASCII characters, the constructor raises exactly
    when the filename does not parse (its right split at "_" does not give
    three parts, or [strptime] rejects the third) and the environment has
    no "CAMERA_1"; what it raises is then the [KeyError] of the handler and
    nothing else.  When it returns, the clip keeps the path, filename and
    extension it was given and carries what [split_reolink_filename]
    returned; with a default camera configured it always returns. *)
Theorem only_missing_default_camera_raises :
  forall (environ : Py.Environ) (dir file ext : string),
    ascii_only file = true ->
    (forall e,
       __init__ environ dir file ext = inl e <->
       e = KeyError "CAMERA_1" /\ environ "CAMERA_1" = None /\
       (List.length (Py.rsplit "_" (Some 2) file) <> 3 \/
        exists part e', nth_error (Py.rsplit "_" (Some 2) file) 2 = Some part /\
                        Py.strptime part REOLINK_TIMESTAMP_FORMAT = inl e')) /\
    (forall e,
       __init__ environ dir file ext = inl e ->
       split_reolink_filename environ file = raise (KeyError "CAMERA_1")) /\
    (forall self,
       __init__ environ dir file ext = inr self ->
       path self = dir /\ filename self = file /\ extension self = ext /\
       split_reolink_filename environ file
       = ret (camera_name self, camera_num self, timestamp self)) /\
    (environ "CAMERA_1" <> None ->
     exists self, __init__ environ dir file ext = ret self).
Proof.
  intros environ dir file ext _.
  pose proof (try_fails_iff file) as Hfails.
  unfold __init__, split_reolink_filename.
  destruct (split_reolink_filename_try file) as [e0|[[n c] t]].
  - assert (Hunparsable := proj1 Hfails (ex_intro _ e0 eq_refl)).
    unfold split_reolink_filename_except, Py.environ_getitem.
    rewrite sentinel_timestamp.
    destruct (environ "CAMERA_1") as [d|]; cbn [bind ret raise].
    + split; [|split; [|split]].
      * intros e. split; [discriminate | intros (_ & Hnone & _); discriminate Hnone].
      * intros e. discriminate.
      * intros self [= <-]. now repeat split.
      * intros _. eexists. reflexivity.
    + split; [|split; [|split]].
      * intros e. split.
        -- intros [= <-]. now repeat split.
        -- intros (-> & _ & _). reflexivity.
      * intros e _. reflexivity.
      * intros self. discriminate.
      * intros H. now destruct H.
  - cbn [bind ret]. split; [|split; [|split]].
    + intros e. split; [discriminate|].
      intros (_ & _ & Hunparsable). apply Hfails in Hunparsable as [e' He'].
      discriminate He'.
    + intros e. discriminate.
    + intros self [= <-]. now repeat split.
    + intros _. eexists. reflexivity.
Qed.

Lemma only_missing_default_camera_raises_witness :
  __init__ (fun _ => None) "/in" "garbage.mp4" "mp4" = inl (KeyError "CAMERA_1").
Proof.
  apply (proj1 (only_missing_default_camera_raises (fun _ => None)
                  "/in" "garbage.mp4" "mp4" eq_refl)).
  split; [reflexivity|]. split; [reflexivity|]. left. vm_compute. lia.
Defined.

(** X5. The class attribute of the valid labels: without the variable the
    class cannot be created, a [KeyError]; with it the labels are never an
    empty list, and joined by ", " they give back the configured string, so
    no character of it is lost and an empty string configures the one label
    "". *)
Theorem valid_labels_rejoin_to_the_setting :
  forall (environ : Py.Environ),
    match VALID_DETECTION_LABELS environ with
    | inl e =>
        e = KeyError "VALID_DETECTION_LABELS" /\
        environ "VALID_DETECTION_LABELS" = None
    | inr labels =>
        labels <> [] /\
        environ "VALID_DETECTION_LABELS" = Some (Py.join ", " labels) /\
        (environ "VALID_DETECTION_LABELS" = Some "" -> labels = [""])
    end.
Proof.
  intros environ. unfold VALID_DETECTION_LABELS, Py.environ_getitem.
  destruct (environ "VALID_DETECTION_LABELS") as [v|]; cbn [bind ret raise].
  - split; [apply rsplit_nonempty|]. split.
    + now rewrite rsplit_join.
    + intros [= ->]. reflexivity.
  - now split.
Qed.


(** * More on the scan loop *)

Section LoopOutcomes.

Context `{cv2 : Cv2} `{shapely : Shapely}.
Variables (name : string) (labels : list string) (deepstack : Detection)
          (min_confidence : Q) (roi : option Polygon).

Local Abbreviation body := (loop_body name labels deepstack min_confidence roi).
Local Abbreviation loop := (while_read_ok name labels deepstack min_confidence roi).
Local Abbreviation analysis := (analyse deepstack min_confidence).
Local Abbreviation pick := (first_accepted labels roi).

Lemma body_idle : forall frame cur tgt,
  cur <> tgt -> body frame cur tgt = ([], Continue tgt).
Proof.
  intros frame cur tgt H. unfold loop_body.
  destruct (Nat.eqb_spec cur tgt); [contradiction | reflexivity].
Qed.

Lemma body_quiet : forall frame cur response,
  analysis frame = inr response -> pick (detections response) = None ->
  body frame cur cur = ([EvEncode cur; EvDetect cur], Continue (cur + 15)).
Proof.
  intros frame cur response Ha Hp. unfold loop_body, analyse, _frame_to_bytes in *.
  rewrite Nat.eqb_refl.
  destruct (imencode_jpg frame) as [[|] image]; cbn [negb bind raise ret] in *;
    [|discriminate Ha].
  rewrite Ha, Hp. reflexivity.
Qed.

Lemma body_accepts : forall frame cur response detection,
  analysis frame = inr response -> pick (detections response) = Some detection ->
  body frame cur cur
  = ([EvEncode cur; EvDetect cur;
      EvLog (Accepted name (label detection) (100 * confidence detection)%Q);
      EvRelease],
     Stop (Returned true (Some frame) (Some response))).
Proof.
  intros frame cur response detection Ha Hp.
  unfold loop_body, analyse, _frame_to_bytes in *. rewrite Nat.eqb_refl.
  destruct (imencode_jpg frame) as [[|] image]; cbn [negb bind raise ret] in *;
    [|discriminate Ha].
  rewrite Ha, Hp. reflexivity.
Qed.

(** A frame that cannot be encoded is not handed to the detector. *)
Lemma body_raises : forall frame cur e,
  analysis frame = inl e ->
  body frame cur cur
  = ((if fst (imencode_jpg frame) then [EvEncode cur; EvDetect cur]
      else [EvEncode cur]),
     Stop (Raised e)).
Proof.
  intros frame cur e Ha. unfold loop_body, analyse, _frame_to_bytes in *.
  rewrite Nat.eqb_refl.
  destruct (imencode_jpg frame) as [[|] image]; cbn [negb bind raise ret fst] in *.
  - rewrite Ha. reflexivity.
  - injection Ha as <-. reflexivity.
Qed.

Lemma nth_error_past_single : forall (frame fr : Frame) n,
  nth_error [frame] (S n) = Some fr -> False.
Proof. intros frame fr n H. cbn [nth_error] in H. rewrite nth_error_nil in H. discriminate. Qed.

(** The loop raises at the first frame that falls due and cannot be
    analysed, without releasing the handle. *)
Lemma loop_raises : forall pending frame cur tgt g m fr e,
  tgt = cur + g ->
  nth_error (frame :: pending) (g + 15 * m) = Some fr ->
  analysis fr = inl e ->
  (forall j, j < m ->
     exists f r, nth_error (frame :: pending) (g + 15 * j) = Some f /\
                 analysis f = inr r /\ pick (detections r) = None) ->
  snd (loop frame pending cur tgt) = Raised e /\
  releases (fst (loop frame pending cur tgt)) = 0 /\
  frames_read (fst (loop frame pending cur tgt)) = g + 15 * m /\
  analysed (fst (loop frame pending cur tgt))
  = map (fun k => tgt + 15 * k)
        (seq 0 (if fst (imencode_jpg fr) then S m else m)).
Proof.
  unfold releases, frames_read, analysed.
  induction pending as [|frame' pending IH];
    intros frame cur tgt g m fr e Htgt Hfr Hraise Hearlier;
    cbn [while_read_ok]; (destruct g as [|g]; [destruct m as [|m]|]).
  all: try (replace tgt with cur in * by lia).
  - cbn in Hfr. injection Hfr as <-. rewrite (body_raises _ _ _ Hraise).
    destruct (fst (imencode_jpg frame)); cbn; repeat split; f_equal; lia.
  - exfalso. replace (0 + 15 * S m) with (S (14 + 15 * m)) in Hfr by lia.
    exact (nth_error_past_single _ _ _ Hfr).
  - exfalso. change (S g + 15 * m) with (S (g + 15 * m)) in Hfr.
    exact (nth_error_past_single _ _ _ Hfr).
  - cbn in Hfr. injection Hfr as <-. rewrite (body_raises _ _ _ Hraise).
    destruct (fst (imencode_jpg frame)); cbn; repeat split; f_equal; lia.
  - destruct (Hearlier 0 ltac:(lia)) as (f & r & Hf & Hr & Hp).
    cbn in Hf. injection Hf as <-. rewrite (body_quiet _ _ _ Hr Hp).
    destruct (IH frame' (S cur) (cur + 15) 14 m fr e) as (Hout & Hrel & Hreads & Han);
      [lia | | exact Hraise | |].
    + replace (0 + 15 * S m) with (S (14 + 15 * m)) in Hfr by lia. exact Hfr.
    + intros j Hj. destruct (Hearlier (S j) ltac:(lia)) as (f & r' & Hf & Hr' & Hp').
      exists f, r'. repeat split; [|exact Hr' | exact Hp'].
      replace (0 + 15 * S j) with (S (14 + 15 * j)) in Hf by lia. exact Hf.
    + cbn [fst snd app flat_map detect_index filter is_read_ok is_release List.length].
      repeat split; [exact Hout | exact Hrel | lia |].
      rewrite Han. destruct (fst (imencode_jpg fr)); apply stride_step.
  - rewrite (body_idle frame cur tgt) by lia.
    destruct (IH frame' (S cur) tgt g m fr e) as (Hout & Hrel & Hreads & Han);
      [lia | exact Hfr | exact Hraise | |].
    + intros j Hj. destruct (Hearlier j Hj) as (f & r & Hf & Hr & Hp).
      exists f, r. now repeat split.
    + cbn [fst snd app flat_map detect_index filter is_read_ok is_release List.length].
      repeat split; [exact Hout | exact Hrel | lia | exact Han].
Qed.

(** The five ways through the body, told by what the analysis of the frame
    gives. *)
Lemma body_by_analysis : forall frame cur tgt,
  (cur <> tgt /\ body frame cur tgt = ([], Continue tgt)) \/
  (cur = tgt /\ exists e, analysis frame = inl e /\
     snd (body frame cur tgt) = Stop (Raised e)) \/
  (cur = tgt /\ exists response detection,
     analysis frame = inr response /\ pick (detections response) = Some detection /\
     snd (body frame cur tgt) = Stop (Returned true (Some frame) (Some response)) /\
     after_release (fst (body frame cur tgt)) = []) \/
  (cur = tgt /\ exists response,
     analysis frame = inr response /\ pick (detections response) = None /\
     body frame cur tgt = ([EvEncode cur; EvDetect cur], Continue (tgt + 15))).
Proof.
  intros frame cur tgt.
  destruct (Nat.eq_dec cur tgt) as [<-|Hne]; [right | left; split; [exact Hne|]].
  - destruct (analysis frame) as [e|response] eqn:Ha.
    + left. split; [reflexivity|]. exists e. split; [reflexivity|].
      now rewrite (body_raises _ _ _ Ha).
    + destruct (pick (detections response)) as [detection|] eqn:Hp.
      * right. left. split; [reflexivity|]. exists response, detection.
        rewrite (body_accepts _ _ _ _ Ha Hp). now repeat split.
      * right. right. split; [reflexivity|]. exists response.
        now rewrite (body_quiet _ _ _ Ha Hp).
  - now apply body_idle.
Qed.

(** A rejection means that every frame that fell due was analysed and held
    no accepted detection. *)
Lemma loop_rejects_only_if : forall pending frame cur tgt g f r,
  tgt = cur + g ->
  snd (loop frame pending cur tgt) = Returned false f r ->
  forall j fr, nth_error (frame :: pending) (g + 15 * j) = Some fr ->
    exists response, analysis fr = inr response /\ pick (detections response) = None.
Proof.
  induction pending as [|frame' pending IH]; intros frame cur tgt g f r Htgt Hrun j fr Hfr;
    cbn [while_read_ok] in Hrun;
    destruct (body_by_analysis frame cur tgt)
      as [(Hc & Hb) | [(Hc & e & Ha & Hb) | [(Hc & resp & det & Ha & Hp & Hb & _)
         | (Hc & resp & Ha & Hp & Hb)]]];
    try (destruct (body frame cur tgt) as [evs step]; cbn [snd] in Hb; subst step;
         cbn [snd] in Hrun; discriminate Hrun);
    rewrite Hb in Hrun; cbn [fst snd] in Hrun.
  - exfalso. destruct g as [|g]; [lia|].
    change (S g + 15 * j) with (S (g + 15 * j)) in Hfr.
    exact (nth_error_past_single _ _ _ Hfr).
  - assert (g = 0) by lia. subst g. destruct j as [|j].
    + cbn in Hfr. injection Hfr as <-. now exists resp.
    + exfalso. replace (0 + 15 * S j) with (S (14 + 15 * j)) in Hfr by lia.
      exact (nth_error_past_single _ _ _ Hfr).
  - destruct g as [|g]; [lia|].
    apply (IH frame' (S cur) tgt g f r ltac:(lia) Hrun j fr).
    exact Hfr.
  - assert (g = 0) by lia. subst g. destruct j as [|j].
    + cbn in Hfr. injection Hfr as <-. now exists resp.
    + apply (IH frame' (S cur) (tgt + 15) 14 f r ltac:(lia) Hrun j fr).
      replace (0 + 15 * S j) with (S (14 + 15 * j)) in Hfr by lia. exact Hfr.
Qed.

(** An acceptance happens at a frame that fell due, after frames that fell
    due, were analysed and held no accepted detection. *)
Lemma loop_accepts_only_if : forall pending frame cur tgt g f r,
  tgt = cur + g ->
  snd (loop frame pending cur tgt) = Returned true f r ->
  exists m fr response detection,
    f = Some fr /\ r = Some response /\
    nth_error (frame :: pending) (g + 15 * m) = Some fr /\
    analysis fr = inr response /\
    pick (detections response) = Some detection /\
    forall j, j < m ->
      exists f' r', nth_error (frame :: pending) (g + 15 * j) = Some f' /\
                    analysis f' = inr r' /\ pick (detections r') = None.
Proof.
  induction pending as [|frame' pending IH]; intros frame cur tgt g f r Htgt Hrun;
    cbn [while_read_ok] in Hrun;
    destruct (body_by_analysis frame cur tgt)
      as [(Hc & Hb) | [(Hc & e & Ha & Hb) | [(Hc & resp & det & Ha & Hp & Hb & _)
         | (Hc & resp & Ha & Hp & Hb)]]].
  all: try (rewrite Hb in Hrun; cbn [fst snd] in Hrun).
  all: try discriminate Hrun.
  all: try (destruct (body frame cur tgt) as [evs step]; cbn [snd] in Hb; subst step;
            cbn [snd] in Hrun; discriminate Hrun).
  all: try (destruct (body frame cur tgt) as [evs step]; cbn [snd] in Hb; subst step;
            cbn [snd] in Hrun; injection Hrun as <- <-;
            assert (g = 0) by lia; subst g;
            exists 0, frame, resp, det;
            repeat split; [exact Ha | exact Hp | intros j Hj; lia]).
  - destruct g as [|g]; [lia|].
    destruct (IH frame' (S cur) tgt g f r ltac:(lia) Hrun)
      as (m & fr & response & detection & -> & -> & Hfr & Ha & Hp & Hearlier).
    exists m, fr, response, detection. repeat split; try assumption.
  - assert (g = 0) by lia. subst g.
    destruct (IH frame' (S cur) (tgt + 15) 14 f r ltac:(lia) Hrun)
      as (m & fr & response & detection & -> & -> & Hfr & Ha' & Hp' & Hearlier).
    exists (S m), fr, response, detection. repeat split; try assumption.
    + replace (0 + 15 * S m) with (S (14 + 15 * m)) by lia. exact Hfr.
    + intros [|j] Hj.
      * exists frame, resp. now repeat split.
      * destruct (Hearlier j ltac:(lia)) as (f' & r' & Hf' & Hr' & Hp'').
        exists f', r'. repeat split; try assumption.
        replace (0 + 15 * S j) with (S (14 + 15 * j)) by lia. exact Hf'.
Qed.

(** Nothing happens after the release. *)
Lemma loop_release_is_last : forall pending frame cur tgt,
  after_release (fst (loop frame pending cur tgt)) = [].
Proof.
  induction pending as [|frame' pending IH]; intros frame cur tgt;
    cbn [while_read_ok];
    destruct (body_by_analysis frame cur tgt)
      as [(Hc & Hb) | [(Hc & e & Ha & Hb) | [(Hc & resp & det & Ha & Hp & Hb & Hlast)
         | (Hc & resp & Ha & Hp & Hb)]]].
  all: try (rewrite Hb; cbn; try reflexivity; apply IH).
  all: try (subst tgt; rewrite (body_raises _ _ _ Ha);
            destruct (fst (imencode_jpg frame)); reflexivity).
  all: destruct (body frame cur tgt) as [evs step]; cbn [fst snd] in *;
    subst step; cbn [fst]; exact Hlast.
Qed.

End LoopOutcomes.

(** A classifier that accepts at least as much makes the scan accept at
    least as often. *)
Section WeakerClassifier.

Context `{cv2 : Cv2} `{shapely : Shapely}.
Variables (name : string) (deepstack : Detection) (min_confidence : Q)
          (labels labels' : list string) (roi roi' : option Polygon).
Hypothesis weaker : forall d,
  _is_accepted_detection labels d roi = true ->
  _is_accepted_detection labels' d roi' = true.

Lemma pick_weaker : forall ds d,
  first_accepted labels roi ds = Some d ->
  exists d', first_accepted labels' roi' ds = Some d'.
Proof.
  intros ds d H. apply first_accepted_some in H as [Hin Hacc].
  destruct (first_accepted labels' roi' ds) as [d'|] eqn:E; [now exists d'|].
  rewrite first_accepted_none in E.
  pose proof (weaker d Hacc) as Hd. rewrite (E d Hin) in Hd. discriminate.
Qed.

Lemma loop_weaker : forall pending frame cur tgt f r,
  snd (while_read_ok name labels deepstack min_confidence roi frame pending cur tgt)
  = Returned true f r ->
  exists f' r',
    snd (while_read_ok name labels' deepstack min_confidence roi' frame pending cur tgt)
    = Returned true f' r'.
Proof.
  induction pending as [|frame' pending IH]; intros frame cur tgt f r Hrun;
    cbn [while_read_ok] in *;
    destruct (body_by_analysis name labels deepstack min_confidence roi frame cur tgt)
      as [(Hc & Hb) | [(Hc & e & Ha & Hb) | [(Hc & resp & det & Ha & Hp & Hb & _)
         | (Hc & resp & Ha & Hp & Hb)]]].
  all: try (rewrite Hb in Hrun; cbn [fst snd] in Hrun).
  all: try discriminate Hrun.
  all: try (destruct (loop_body name labels deepstack min_confidence roi frame cur tgt)
              as [evs step]; cbn [snd] in Hb; subst step; cbn [snd] in Hrun;
            discriminate Hrun).
  all: try (subst tgt; destruct (pick_weaker _ _ Hp) as [d' Hp'];
            rewrite (body_accepts name labels' deepstack min_confidence roi'
                                  frame cur resp d' Ha Hp');
            cbn [snd]; now eauto).
  - rewrite (body_idle name labels' deepstack min_confidence roi' frame cur tgt Hc).
    cbn [fst snd]. now apply (IH frame' (S cur) tgt f r).
  - subst tgt.
    destruct (first_accepted labels' roi' (detections resp)) as [d'|] eqn:Hp'.
    + rewrite (body_accepts name labels' deepstack min_confidence roi'
                            frame cur resp d' Ha Hp').
      cbn [snd]. now eauto.
    + rewrite (body_quiet name labels' deepstack min_confidence roi'
                          frame cur resp Ha Hp').
      cbn [fst snd]. now apply (IH frame' (S cur) (cur + 15) f r).
Qed.

End WeakerClassifier.


(** * More on [is_accepted] *)

Section ScanOutcomes.

Context `{cv2 : Cv2} `{shapely : Shapely}.
Variables (self : ReolinkVideo) (labels : list string) (deepstack : Detection)
          (min_confidence : Q) (roi : option Polygon).

Local Abbreviation run := (is_accepted self labels deepstack min_confidence roi).
Local Abbreviation quiet f :=
  (exists r, analyse deepstack min_confidence f = inr r /\
             forall d, In d (detections r) -> _is_accepted_detection labels d roi = false).

(** X6. When the analysis of a frame that falls due raises, on the encoding
    or in the detector, and every earlier frame that fell due was analysed
    without an accepted detection, the scan ends with that very exception;
    the frames up to that one were read, the handle was not released, and a
    frame that could not be encoded was not handed to the detector. *)
Theorem scan_raises_at_first_failure :
  forall (m : nat) (frame : Frame) (e : Exn),
    nth_error (stream self) (15 * m) = Some frame ->
    analyse deepstack min_confidence frame = inl e ->
    (forall j, j < m -> exists f, nth_error (stream self) (15 * j) = Some f /\ quiet f) ->
    snd run = Raised e /\
    releases (fst run) = 0 /\
    frames_read (fst run) = 1 + 15 * m /\
    analysed (fst run) = stride_targets (if fst (imencode_jpg frame) then S m else m).
Proof.
  intros m frame e Hframe Hraise Hearlier. rewrite is_accepted_unfold.
  destruct (stream self) as [|frame0 pending] eqn:Hstream.
  - destruct (15 * m); discriminate.
  - destruct (loop_raises (filename_with_ext self) labels deepstack min_confidence roi
                          pending frame0 1 1 0 m frame e)
      as (Hout & Hrel & Hreads & Han); [reflexivity | exact Hframe | exact Hraise | |].
    + intros j Hj. destruct (Hearlier j Hj) as (f & Hf & r & Hr & Hnone).
      exists f, r. repeat split; [exact Hf | exact Hr |]. now apply first_accepted_none.
    + cbv zeta. cbn [fst snd].
      unfold analysed, frames_read, releases, stride_targets in *.
      cbn [flat_map detect_index filter is_read_ok is_release app List.length].
      repeat split; [exact Hout | exact Hrel | lia | exact Han].
Qed.

(** X7. The scan returns (false, None, None) exactly when every frame that
    falls due, that is every fifteenth frame of the stream from the first,
    is analysed without a raise and holds no accepted detection. *)
Theorem rejection_iff_nothing_accepted :
  snd run = Returned false None None <->
  forall j f, nth_error (stream self) (15 * j) = Some f -> quiet f.
Proof.
  split.
  - rewrite is_accepted_unfold.
    destruct (stream self) as [|frame pending].
    + intros _ j f Hf. destruct (15 * j); discriminate.
    + cbv zeta. cbn [snd]. intros Hrun j f Hf.
      destruct (loop_rejects_only_if _ _ _ _ _ pending frame 1 1 0 None None
                                     eq_refl Hrun j f Hf) as (r & Hr & Hp).
      exists r. split; [exact Hr|]. now apply first_accepted_none.
  - intros Hquiet. rewrite is_accepted_unfold.
    destruct (stream self) as [|frame pending]; [reflexivity|].
    cbv zeta. cbn [snd].
    apply (loop_rejects _ _ _ _ _ pending frame 1 1 0 eq_refl).
    intros j f Hf. destruct (Hquiet j f Hf) as (r & Hr & Hnone).
    exists r. split; [exact Hr|]. now apply first_accepted_none.
Qed.

(** X8. A frame the scan returns is a frame that fell due, frame
    [1 + 15 * m] of the stream; the response returned with it is what the
    detector gave for it and holds an accepted detection; every frame that
    fell due before was analysed and held none; and the scan read [1 + 15 * m]
    frames and called the detector [m + 1] times. *)
Theorem accepted_frame_is_first_acceptance :
  forall (f : option Frame) (r : option DetectionResponse),
    snd run = Returned true f r ->
    exists m frame response detection,
      f = Some frame /\ r = Some response /\
      nth_error (stream self) (15 * m) = Some frame /\
      analyse deepstack min_confidence frame = inr response /\
      In detection (detections response) /\
      _is_accepted_detection labels detection roi = true /\
      (forall j, j < m ->
         exists f', nth_error (stream self) (15 * j) = Some f' /\ quiet f') /\
      frames_read (fst run) = 1 + 15 * m /\
      analysed (fst run) = stride_targets (S m).
Proof.
  intros f r. rewrite is_accepted_unfold.
  destruct (stream self) as [|frame0 pending]; [discriminate|].
  cbv zeta. cbn [fst snd]. intros Hrun.
  destruct (loop_accepts_only_if _ _ _ _ _ pending frame0 1 1 0 f r eq_refl Hrun)
    as (m & frame & response & detection & -> & -> & Hframe & Ha & Hp & Hearlier).
  destruct (first_accepted_some _ _ _ _ Hp) as [Hin Hacc].
  destruct (loop_accepts (filename_with_ext self) labels deepstack min_confidence roi
                         pending frame0 1 1 0 m frame response detection
                         eq_refl Hframe Ha Hp Hearlier)
    as (_ & Han & Hreads & _).
  exists m, frame, response, detection.
  unfold analysed, frames_read, stride_targets in *.
  cbn [flat_map detect_index filter is_read_ok app List.length].
  repeat split; try assumption; try lia.
  intros j Hj. destruct (Hearlier j Hj) as (f' & r' & Hf' & Hr' & Hp').
  exists f'. split; [exact Hf'|]. exists r'. split; [exact Hr'|].
  now apply first_accepted_none.
Qed.

(** X9. The detector is called at most once for every fifteen frames of the
    stream, rounded up, and no frame is read twice. *)
Theorem detector_calls_are_bounded :
  15 * List.length (analysed (fst run)) <= List.length (stream self) + 14 /\
  frames_read (fst run) <= List.length (stream self).
Proof.
  rewrite is_accepted_unfold.
  destruct (stream self) as [|frame pending]; [cbn; lia|].
  destruct (loop_stride (filename_with_ext self) labels deepstack min_confidence
                        roi pending frame 1 1 0 eq_refl ltac:(lia))
    as (n & Han & Hle & Hout).
  cbv zeta. cbn [fst snd].
  unfold analysed, frames_read in *.
  cbn [flat_map detect_index filter is_read_ok app List.length].
  rewrite Han, length_map, length_seq.
  destruct (snd (while_read_ok _ _ _ _ _ frame pending 1 1)) as [[|] ? ?|]; lia.
Qed.

(** X10. The release, when there is one, is the last thing a scan does: the
    stream is not read, and no frame is encoded or analysed, after it; and
    there is never a second release. *)
Theorem release_is_the_last_event :
  after_release (fst run) = [] /\ releases (fst run) <= 1.
Proof.
  split.
  - rewrite is_accepted_unfold.
    destruct (stream self) as [|frame pending]; [reflexivity|].
    cbv zeta. cbn [fst after_release]. apply loop_release_is_last.
  - rewrite releases_by_outcome. destruct (snd run); lia.
Qed.

End ScanOutcomes.

(** X11. A region only narrows what is accepted: a clip accepted with a
    region of interest is also accepted without one, possibly at an earlier
    frame. *)
Theorem accepted_with_region_is_accepted_without :
  forall `{cv2 : Cv2} `{shapely : Shapely} (self : ReolinkVideo) (labels : list string)
         (deepstack : Detection) (min_confidence : Q) (region : Polygon)
         (f : option Frame) (r : option DetectionResponse),
    snd (is_accepted self labels deepstack min_confidence (Some region))
    = Returned true f r ->
    exists f' r',
      snd (is_accepted self labels deepstack min_confidence None) = Returned true f' r'.
Proof.
  intros cv2 shapely self labels deepstack min_confidence region f r.
  rewrite !is_accepted_unfold.
  destruct (stream self) as [|frame pending]; [discriminate|].
  cbv zeta. cbn [snd].
  apply loop_weaker. intros d. unfold _is_accepted_detection.
  destruct (negb (existsb (String.eqb (label d)) labels)); [discriminate | reflexivity].
Qed.

(** X12. More valid labels only widen what is accepted: a clip accepted under
    a list of labels is accepted under every list that holds them all. *)
Theorem accepted_under_fewer_labels_is_accepted_under_more :
  forall `{cv2 : Cv2} `{shapely : Shapely} (self : ReolinkVideo)
         (labels labels' : list string)
         (deepstack : Detection) (min_confidence : Q) (roi : option Polygon)
         (f : option Frame) (r : option DetectionResponse),
    incl labels labels' ->
    snd (is_accepted self labels deepstack min_confidence roi) = Returned true f r ->
    exists f' r',
      snd (is_accepted self labels' deepstack min_confidence roi) = Returned true f' r'.
Proof.
  intros cv2 shapely self labels labels' deepstack min_confidence roi f r Hincl.
  rewrite !is_accepted_unfold.
  destruct (stream self) as [|frame pending]; [discriminate|].
  cbv zeta. cbn [snd].
  apply loop_weaker. intros d. unfold _is_accepted_detection.
  destruct (existsb (String.eqb (label d)) labels) eqn:E; cbn [negb]; [|discriminate].
  apply label_test in E. apply Hincl in E. apply label_test in E.
  rewrite E. cbn [negb]. trivial.
Qed.

(** X13. Clips with the same camera name, second and extension get the same
    friendly name, whatever their camera numbers, so moved into one
    directory they land on one file: after both moves that file holds the
    clip moved last, and neither clip is found where it was. *)
Theorem clips_of_one_second_collide :
  forall (a b : ReolinkVideo) (fs fs1 fs2 : FileSystem) (target_path : string),
    camera_name a = camera_name b ->
    timestamp a = timestamp b ->
    extension a = extension b ->
    full_path a <> full_path b ->
    full_path a <> Py.os_path_join target_path (friendly_filename a None) ->
    full_path b <> Py.os_path_join target_path (friendly_filename a None) ->
    move a fs target_path = inr fs1 ->
    move b fs1 target_path = inr fs2 ->
    friendly_filename b None = friendly_filename a None /\
    fs1 (Py.os_path_join target_path (friendly_filename a None)) = fs (full_path a) /\
    fs2 (Py.os_path_join target_path (friendly_filename a None)) = fs (full_path b) /\
    fs (full_path b) <> None /\
    fs2 (full_path a) = None /\ fs2 (full_path b) = None.
Proof.
  intros a b fs fs1 fs2 target_path Hname Htime Hext Hab Ha Hb.
  assert (Hfriendly : friendly_filename b None = friendly_filename a None).
  { unfold friendly_filename, friendly_timestamp. now rewrite Hname, Htime, Hext. }
  unfold move. rewrite Hfriendly.
  set (target := Py.os_path_join target_path (friendly_filename a None)) in *.
  unfold os_rename.
  destruct (fs (full_path a)) as [content_a|] eqn:Ea; [|discriminate].
  intros [= <-].
  apply String.eqb_neq in Hab, Ha, Hb.
  rewrite Hb. rewrite (String.eqb_sym (full_path b) (full_path a)), Hab.
  destruct (fs (full_path b)) as [content_b|] eqn:Eb; [|discriminate].
  intros [= <-].
  rewrite !String.eqb_refl, Ha, Hab, Hb.
  repeat split; try reflexivity. discriminate.
Qed.

Lemma clips_of_one_second_collide_witness :
  friendly_filename DemoFiles.clip_b None = friendly_filename DemoFiles.clip_a None /\
  DemoFiles.after_first_move "/out/2023-12-24 23-59-59 (Cam).mp4" = Some [Byte.x01] /\
  DemoFiles.after_second_move "/out/2023-12-24 23-59-59 (Cam).mp4" = Some [Byte.x02] /\
  DemoFiles.disk "/in/Cam_02_20231224235959.mp4" <> None /\
  DemoFiles.after_second_move "/in/Cam_01_20231224235959.mp4" = None /\
  DemoFiles.after_second_move "/in/Cam_02_20231224235959.mp4" = None.
Proof.
  apply (clips_of_one_second_collide DemoFiles.clip_a DemoFiles.clip_b DemoFiles.disk
           DemoFiles.after_first_move DemoFiles.after_second_move "/out").
  - reflexivity.
  - reflexivity.
  - reflexivity.
  - intros H. vm_compute in H. discriminate H.
  - intros H. vm_compute in H. discriminate H.
  - intros H. vm_compute in H. discriminate H.
  - reflexivity.
  - reflexivity.
Defined.

(** * More scans on concrete clips *)

Section MoreOnDemoClips.

Import Demo.

Local Abbreviation scan clip labels roi :=
  (@is_accepted numbered_cv2 rect_shapely clip labels deepstack (1 # 2) roi).

Lemma scan_raises_at_first_failure_witness :
  snd (scan broken_clip labels None) = Raised (CapabilityError "connection refused") /\
  releases (fst (scan broken_clip labels None)) = 0 /\
  frames_read (fst (scan broken_clip labels None)) = 1 /\
  analysed (fst (scan broken_clip labels None)) = [1].
Proof.
  apply (@scan_raises_at_first_failure numbered_cv2 rect_shapely broken_clip labels
           deepstack (1 # 2) None 0 200 (CapabilityError "connection refused")).
  - reflexivity.
  - reflexivity.
  - intros j Hj. lia.
Defined.

Lemma accepted_frame_is_first_acceptance_witness :
  exists m frame response detection,
    Some 16 = Some frame /\
    Some (mk_DetectionResponse [cat; person]) = Some response /\
    nth_error (@stream numbered_cv2 clip) (15 * m) = Some frame /\
    @analyse numbered_cv2 deepstack (1 # 2) frame = inr response /\
    In detection (detections response) /\
    @_is_accepted_detection rect_shapely labels detection None = true /\
    (forall j, j < m ->
       exists f', nth_error (@stream numbered_cv2 clip) (15 * j) = Some f' /\
         exists r, @analyse numbered_cv2 deepstack (1 # 2) f' = inr r /\
           forall d, In d (detections r) ->
             @_is_accepted_detection rect_shapely labels d None = false) /\
    frames_read (fst (scan clip labels None)) = 1 + 15 * m /\
    analysed (fst (scan clip labels None)) = stride_targets (S m).
Proof.
  apply (@accepted_frame_is_first_acceptance numbered_cv2 rect_shapely clip labels
           deepstack (1 # 2) None (Some 16) (Some (mk_DetectionResponse [cat; person]))).
  reflexivity.
Defined.

Lemma accepted_with_region_is_accepted_without_witness :
  exists f' r', snd (scan clip labels None) = @Returned numbered_cv2 true f' r'.
Proof.
  apply (@accepted_with_region_is_accepted_without numbered_cv2 rect_shapely clip labels
           deepstack (1 # 2) (20, 30, 40, 40)%Z (Some 16)
           (Some (mk_DetectionResponse [cat; person]))).
  reflexivity.
Defined.

Lemma accepted_under_fewer_labels_is_accepted_under_more_witness :
  exists f' r', snd (scan clip ["person"; "car"] None) = @Returned numbered_cv2 true f' r'.
Proof.
  apply (@accepted_under_fewer_labels_is_accepted_under_more numbered_cv2 rect_shapely
           clip ["person"] ["person"; "car"] deepstack (1 # 2) None (Some 16)
           (Some (mk_DetectionResponse [cat; person]))).
  - intros l [<- | []]. now left.
  - reflexivity.
Defined.

End MoreOnDemoClips.

(** * How much of a filename [strptime] can read *)

Lemma match_seq_length : forall classes s m rest,
  Py.match_seq classes s = Some (m, rest) ->
  String.length s = List.length classes + String.length rest.
Proof.
  induction classes as [|cl classes IH]; intros s m rest H.
  - injection H as <- <-. reflexivity.
  - cbn [Py.match_seq] in H. destruct s as [|c s]; [discriminate H|].
    destruct (cl c); [|discriminate H].
    destruct (Py.match_seq classes s) as [[m' rest']|] eqn:E; [|discriminate H].
    injection H as <- <-. cbn [String.length List.length].
    now rewrite (IH s m' rest' E).
Qed.

Lemma first_some_in : forall (A B : Type) (f : A -> option B) xs b,
  Py.first_some f xs = Some b -> exists x, In x xs /\ f x = Some b.
Proof.
  intros A B f xs b. induction xs as [|x xs IH]; cbn [Py.first_some]; [discriminate|].
  destruct (f x) as [b'|] eqn:E.
  - intros [= <-]. exists x. split; [now left | exact E].
  - intros H. destruct (IH H) as [x' [Hin Hx']]. exists x'. split; [now right | exact Hx'].
Qed.

(** A match consumes, group by group, as many characters as one of the
    alternatives of the group is long. *)
Lemma regex_match_consumes : forall groups s found rest,
  Py.regex_match groups s = Some (found, rest) ->
  exists widths,
    Forall2 (fun g w => exists alt, In alt (snd g) /\ w = List.length alt) groups widths /\
    String.length s = list_sum widths + String.length rest.
Proof.
  induction groups as [|[gname alts] groups IH]; intros s found rest H.
  - injection H as <- <-. exists []. split; [constructor | reflexivity].
  - cbn [Py.regex_match] in H. apply first_some_in in H as [alt [Hin H]].
    destruct (Py.match_seq alt s) as [[m rest1]|] eqn:Em; [|discriminate H].
    destruct (Py.regex_match groups rest1) as [[found' rest2]|] eqn:Er; [|discriminate H].
    injection H as <- <-.
    destruct (IH rest1 found' rest2 Er) as [widths [Hw Hlen]].
    exists (List.length alt :: widths). split.
    + constructor; [now exists alt | exact Hw].
    + apply match_seq_length in Em.
      change (list_sum (List.length alt :: widths))
        with (List.length alt + list_sum widths). lia.
Qed.

Lemma year_width : forall alts alt,
  Py.directive_regex "Y" = Some alts -> In alt alts -> List.length alt = 4.
Proof. intros alts alt [= <-] [<- | []]. reflexivity. Qed.

Lemma field_width : forall d alts alt,
  In d ["m"; "d"; "H"; "M"; "S"]%char ->
  Py.directive_regex d = Some alts -> In alt alts -> 1 <= List.length alt <= 2.
Proof.
  intros d alts alt Hd. cbn [In] in Hd.
  repeat (destruct Hd as [<- | Hd];
          [intros [= <-] Hin; cbn [In] in Hin;
           repeat (destruct Hin as [<- | Hin]; [cbn; lia|]); contradiction|]).
  contradiction.
Qed.

Lemma strptime_reads_9_to_14 : forall part t,
  Py.strptime part REOLINK_TIMESTAMP_FORMAT = inr t ->
  9 <= String.length part <= 14.
Proof.
  intros part t. unfold Py.strptime, raise.
  destruct reolink_format_groups
    as (ya & ma & da & Ha & Ma & Sa & EY & Em & Ed & EH & EM & ES & ->).
  destruct (Py.regex_match _ part) as [[found [|c rest]]|] eqn:E; try discriminate.
  intros _. apply regex_match_consumes in E as [widths [Hw Hlen]].
  repeat match goal with
         | F : Forall2 _ (_ :: _) _ |- _ => inversion F; subst; clear F
         | F : Forall2 _ [] _ |- _ => inversion F; subst; clear F
         end.
  repeat match goal with
         | F : exists alt, _ /\ _ |- _ => destruct F as (? & ? & ->)
         end.
  cbn [snd] in *.
  repeat match goal with
         | F : In ?alt ya |- _ => apply (year_width _ _ EY) in F
         | F : In ?alt ma |- _ => apply (field_width "m" _ _ ltac:(cbn; tauto) Em) in F
         | F : In ?alt da |- _ => apply (field_width "d" _ _ ltac:(cbn; tauto) Ed) in F
         | F : In ?alt Ha |- _ => apply (field_width "H" _ _ ltac:(cbn; tauto) EH) in F
         | F : In ?alt Ma |- _ => apply (field_width "M" _ _ ltac:(cbn; tauto) EM) in F
         | F : In ?alt Sa |- _ => apply (field_width "S" _ _ ltac:(cbn; tauto) ES) in F
         end.
  cbn [list_sum fold_right String.length] in Hlen. lia.
Qed.

Lemma split_try_inr : forall filename n c t,
  split_reolink_filename_try filename = inr (n, c, t) ->
  exists part,
    Py.rsplit "_" (Some 2) filename = [n; c; part] /\
    Py.strptime part REOLINK_TIMESTAMP_FORMAT = ret t.
Proof.
  intros filename n c t. unfold split_reolink_filename_try, Py.getitem.
  pose proof (rsplit_at_most "_" 2 filename) as Hmost.
  destruct (Py.rsplit "_" (Some 2) filename) as [|p0 [|p1 [|p2 [|p3 ps]]]];
    cbn [List.length] in Hmost; try lia;
    cbn [nth_error bind ret raise]; try discriminate.
  destruct (Py.strptime p2 REOLINK_TIMESTAMP_FORMAT) as [e|t'] eqn:Hparse;
    cbn [bind]; [discriminate|].
  intros [= <- <- <-]. now exists p2.
Qed.

(** X14. [strptime] reads between 9 and 14 characters of ASCII text for
    this format, so a filename whose part behind the second underscore from
    the right is ASCII text shorter than 9 or longer than 14 characters (a
    timestamp with a digit too many, say) is not parsed: with a default
    camera configured it gets the fallback identity. *)
Theorem last_part_of_wrong_length_falls_back :
  forall (environ : Py.Environ) (filename default part : string),
    environ "CAMERA_1" = Some default ->
    nth_error (Py.rsplit "_" (Some 2) filename) 2 = Some part ->
    ascii_only part = true ->
    String.length part < 9 \/ 14 < String.length part ->
    split_reolink_filename environ filename
    = ret (default, "01", Py.mk_datetime 2000 1 1 1 0 0).
Proof.
  intros environ filename default part Henv Hpart _ Hlen.
  unfold split_reolink_filename.
  destruct (split_reolink_filename_try filename) as [e|[[n c] t]] eqn:Htry.
  - unfold split_reolink_filename_except, Py.environ_getitem.
    rewrite Henv, sentinel_timestamp. reflexivity.
  - exfalso. apply split_try_inr in Htry as [part' [Hparts Hparse]].
    rewrite Hparts in Hpart. cbn [nth_error] in Hpart. injection Hpart as ->.
    apply strptime_reads_9_to_14 in Hparse. lia.
Qed.

Lemma last_part_of_wrong_length_falls_back_witness :
  split_reolink_filename Demo.environ "Cam_01_202105110827219"
  = ret ("Yard", "01", Py.mk_datetime 2000 1 1 1 0 0).
Proof.
  apply (last_part_of_wrong_length_falls_back Demo.environ "Cam_01_202105110827219"
           "Yard" "202105110827219").
  - reflexivity.
  - reflexivity.
  - reflexivity.
  - right. vm_compute. lia.
Defined.

(** * The valid labels as a set *)

Section SameClassifier.

Context `{cv2 : Cv2} `{shapely : Shapely}.
Variables (name : string) (deepstack : Detection) (min_confidence : Q)
          (labels labels' : list string) (roi : option Polygon).
Hypothesis same : forall d,
  _is_accepted_detection labels d roi = _is_accepted_detection labels' d roi.

Lemma pick_same : forall ds,
  first_accepted labels roi ds = first_accepted labels' roi ds.
Proof.
  induction ds as [|d ds IH]; [reflexivity|].
  cbn [first_accepted]. now rewrite same, IH.
Qed.

Lemma loop_same : forall pending frame cur tgt,
  while_read_ok name labels deepstack min_confidence roi frame pending cur tgt
  = while_read_ok name labels' deepstack min_confidence roi frame pending cur tgt.
Proof.
  assert (Hbody : forall frame cur tgt,
    loop_body name labels deepstack min_confidence roi frame cur tgt
    = loop_body name labels' deepstack min_confidence roi frame cur tgt).
  { intros frame cur tgt. unfold loop_body.
    destruct (cur =? tgt); [|reflexivity].
    destruct (_frame_to_bytes frame) as [e|image]; [reflexivity|].
    destruct (detectObject deepstack image min_confidence) as [e|response];
      [reflexivity|].
    now rewrite pick_same. }
  induction pending as [|frame' pending IH]; intros frame cur tgt;
    cbn [while_read_ok]; rewrite Hbody;
    destruct (loop_body name labels' deepstack min_confidence roi frame cur tgt)
      as [evs [o|tgt']]; try reflexivity.
  now rewrite IH.
Qed.

End SameClassifier.

(** X15. Only the set of the valid labels matters: two lists with the same
    elements, in any order and with any repetitions, give the same scan,
    event by event, and the same result. *)
Theorem scan_depends_on_the_set_of_labels :
  forall `{cv2 : Cv2} `{shapely : Shapely} (self : ReolinkVideo)
         (labels labels' : list string)
         (deepstack : Detection) (min_confidence : Q) (roi : option Polygon),
    (forall l, In l labels <-> In l labels') ->
    is_accepted self labels deepstack min_confidence roi
    = is_accepted self labels' deepstack min_confidence roi.
Proof.
  intros cv2 shapely self labels labels' deepstack min_confidence roi Hsame.
  rewrite !is_accepted_unfold.
  destruct (stream self) as [|frame pending]; [reflexivity|].
  cbv zeta. rewrite (loop_same _ deepstack min_confidence labels labels' roi);
    [reflexivity|].
  intros d. unfold _is_accepted_detection.
  replace (existsb (String.eqb (label d)) labels')
    with (existsb (String.eqb (label d)) labels); [reflexivity|].
  apply eq_true_iff_eq. rewrite !label_test. apply Hsame.
Qed.

Lemma scan_depends_on_the_set_of_labels_witness :
  @is_accepted Demo.numbered_cv2 Demo.rect_shapely Demo.clip
    ["person"; "car"] Demo.deepstack (1 # 2) None
  = @is_accepted Demo.numbered_cv2 Demo.rect_shapely Demo.clip
      ["car"; "person"; "car"] Demo.deepstack (1 # 2) None.
Proof.
  apply (@scan_depends_on_the_set_of_labels Demo.numbered_cv2 Demo.rect_shapely
           Demo.clip ["person"; "car"] ["car"; "person"; "car"]).
  intros l. cbn [In]. tauto.
Defined.

(** * The stride, up to the first acceptance *)

Section RaisingLoop.

Context `{cv2 : Cv2} `{shapely : Shapely}.
Variables (name : string) (labels : list string) (deepstack : Detection)
          (min_confidence : Q) (roi : option Polygon).

Local Abbreviation body := (loop_body name labels deepstack min_confidence roi).
Local Abbreviation loop := (while_read_ok name labels deepstack min_confidence roi).
Local Abbreviation analysis := (analyse deepstack min_confidence).
Local Abbreviation pick := (first_accepted labels roi).

(** A raise comes from the analysis of a frame that fell due, after frames
    that fell due, were analysed and held no accepted detection. *)
Lemma loop_raises_only_if : forall pending frame cur tgt g e,
  tgt = cur + g ->
  snd (loop frame pending cur tgt) = Raised e ->
  exists m fr,
    nth_error (frame :: pending) (g + 15 * m) = Some fr /\
    analysis fr = inl e /\
    forall j, j < m ->
      exists f' r', nth_error (frame :: pending) (g + 15 * j) = Some f' /\
                    analysis f' = inr r' /\ pick (detections r') = None.
Proof.
  induction pending as [|frame' pending IH]; intros frame cur tgt g e Htgt Hrun;
    cbn [while_read_ok] in Hrun;
    destruct (body_by_analysis name labels deepstack min_confidence roi frame cur tgt)
      as [(Hc & Hb) | [(Hc & e0 & Ha & Hb) | [(Hc & resp & det & Ha & Hp & Hb & _)
         | (Hc & resp & Ha & Hp & Hb)]]].
  all: try (rewrite Hb in Hrun; cbn [fst snd] in Hrun).
  all: try discriminate Hrun.
  all: try (destruct (body frame cur tgt) as [evs step]; cbn [snd] in Hb; subst step;
            cbn [snd] in Hrun; discriminate Hrun).
  all: try (destruct (body frame cur tgt) as [evs step]; cbn [snd] in Hb; subst step;
            cbn [snd] in Hrun; injection Hrun as <-;
            assert (g = 0) by lia; subst g;
            exists 0, frame;
            repeat split; [exact Ha | intros j Hj; lia]).
  - destruct g as [|g]; [lia|].
    destruct (IH frame' (S cur) tgt g e ltac:(lia) Hrun)
      as (m & fr & Hfr & Ha & Hearlier).
    exists m, fr. repeat split; assumption.
  - assert (g = 0) by lia. subst g.
    destruct (IH frame' (S cur) (tgt + 15) 14 e ltac:(lia) Hrun)
      as (m & fr & Hfr & Ha' & Hearlier).
    exists (S m), fr. repeat split; try assumption.
    + replace (0 + 15 * S m) with (S (14 + 15 * m)) by lia. exact Hfr.
    + intros [|j] Hj.
      * exists frame, resp. now repeat split.
      * destruct (Hearlier j ltac:(lia)) as (f' & r' & Hf' & Hr' & Hp').
        exists f', r'. repeat split; try assumption.
        replace (0 + 15 * S j) with (S (14 + 15 * j)) by lia. exact Hf'.
Qed.

End RaisingLoop.

Section StrideAndAnswers.

Context `{cv2 : Cv2} `{shapely : Shapely}.
Variables (self : ReolinkVideo) (labels : list string) (deepstack : Detection)
          (min_confidence : Q) (roi : option Polygon).

Local Abbreviation run := (is_accepted self labels deepstack min_confidence roi).
Local Abbreviation quiet f :=
  (exists r, analyse deepstack min_confidence f = inr r /\
             forall d, In d (detections r) -> _is_accepted_detection labels d roi = false).

(** C3. The frames handed to the detection capability are those with the
    indices 1, 16, 31, ... in this order, up to the first one whose
    analysis accepts or raises, or else to the end of the stream.  Every
    analysed frame but the last was answered without an accepted detection.
    On a rejection every frame of the stream was read, every target within
    the stream was analysed and none held an accepted detection; on an
    acceptance the last frame analysed is the last one read and the one
    returned, and its response holds an accepted detection; on a raise the
    scan stopped at a target, on the detector or, before the detector was
    called, on the encoding.  The frames read in between are never
    analysed. *)
Theorem analysed_frames_follow_stride :
  exists n,
    analysed (fst run) = stride_targets n /\
    frames_read (fst run) <= List.length (stream self) /\
    (forall j, S j < n ->
       exists f, nth_error (stream self) (15 * j) = Some f /\ quiet f) /\
    match snd run with
    | Returned false _ _ =>
        frames_read (fst run) = List.length (stream self) /\
        List.length (stream self) <= 15 * n /\
        15 * n < List.length (stream self) + 15 /\
        (forall j, j < n ->
           exists f, nth_error (stream self) (15 * j) = Some f /\ quiet f)
    | Returned true f r =>
        1 <= n /\ frames_read (fst run) = 1 + 15 * (n - 1) /\
        exists frame response detection,
          f = Some frame /\ r = Some response /\
          nth_error (stream self) (15 * (n - 1)) = Some frame /\
          analyse deepstack min_confidence frame = inr response /\
          In detection (detections response) /\
          _is_accepted_detection labels detection roi = true
    | Raised e =>
        exists frame,
          analyse deepstack min_confidence frame = inl e /\
          ((1 <= n /\ frames_read (fst run) = 1 + 15 * (n - 1) /\
            nth_error (stream self) (15 * (n - 1)) = Some frame /\
            fst (imencode_jpg frame) = true) \/
           (frames_read (fst run) = 1 + 15 * n /\
            nth_error (stream self) (15 * n) = Some frame /\
            fst (imencode_jpg frame) = false))
    end.
Proof.
  rewrite is_accepted_unfold.
  destruct (stream self) as [|frame0 pending].
  - exists 0. cbn. repeat split; try lia; intros j Hj; lia.
  - cbv zeta. cbn [fst snd].
    unfold analysed, frames_read, stride_targets.
    cbn [flat_map detect_index filter is_read_ok app List.length].
    set (rest := while_read_ok (filename_with_ext self) labels deepstack
                               min_confidence roi frame0 pending 1 1).
    assert (Hquiet : forall j f' r',
              nth_error (frame0 :: pending) (0 + 15 * j) = Some f' /\
              analyse deepstack min_confidence f' = inr r' /\
              first_accepted labels roi (detections r') = None ->
              exists f, nth_error (frame0 :: pending) (15 * j) = Some f /\ quiet f).
    { intros j f' r' (Hf & Hr & Hp). exists f'. split; [exact Hf|].
      exists r'. split; [exact Hr|]. now apply first_accepted_none. }
    destruct (snd rest) as [[|] f r|e] eqn:Hout.
    + destruct (loop_accepts_only_if _ _ _ _ _ pending frame0 1 1 0 f r eq_refl Hout)
        as (m & frame & response & detection & -> & -> & Hframe & Ha & Hp & Hearlier).
      destruct (first_accepted_some _ _ _ _ Hp) as [Hin Hacc].
      destruct (loop_accepts (filename_with_ext self) labels deepstack min_confidence roi
                             pending frame0 1 1 0 m frame response detection
                             eq_refl Hframe Ha Hp Hearlier)
        as (_ & Han & Hreads & _).
      fold rest in Han, Hreads. unfold analysed, frames_read in Han, Hreads.
      exists (S m). split; [exact Han|]. split; [|split].
      * pose proof (proj1 (nth_error_Some (frame0 :: pending) (0 + 15 * m))) as Hb.
        rewrite Hframe in Hb. specialize (Hb ltac:(discriminate)).
        cbn [List.length] in Hb. lia.
      * intros j Hj. destruct (Hearlier j ltac:(lia)) as (f' & r' & H').
        now apply (Hquiet j f' r').
      * split; [lia|]. split; [lia|].
        exists frame, response, detection.
        replace (15 * (S m - 1)) with (0 + 15 * m) by lia. now repeat split.
    + pose proof (loop_rejects_only_if _ _ _ _ _ pending frame0 1 1 0 f r eq_refl Hout)
        as Hall.
      destruct (loop_stride (filename_with_ext self) labels deepstack min_confidence
                            roi pending frame0 1 1 0 eq_refl ltac:(lia))
        as (n & Han & Hle & Hbounds).
      fold rest in Han, Hle, Hbounds. rewrite Hout in Hbounds.
      unfold analysed, frames_read in Han, Hle, Hbounds.
      destruct Hbounds as (Hreads & Hlo & Hhi).
      assert (Hdue : forall j, j < n ->
                exists f, nth_error (frame0 :: pending) (15 * j) = Some f /\ quiet f).
      { intros j Hj.
        destruct (nth_error (frame0 :: pending) (0 + 15 * j)) as [f'|] eqn:Hf.
        - destruct (Hall j f' Hf) as (r' & Hr & Hp). now apply (Hquiet j f' r').
        - apply nth_error_None in Hf. cbn [List.length] in Hf. lia. }
      exists n. split; [exact Han|]. split; [lia|]. split.
      * intros j Hj. apply Hdue. lia.
      * repeat split; try lia. exact Hdue.
    + destruct (loop_raises_only_if _ _ _ _ _ pending frame0 1 1 0 e eq_refl Hout)
        as (m & frame & Hframe & Ha & Hearlier).
      destruct (loop_raises (filename_with_ext self) labels deepstack min_confidence roi
                            pending frame0 1 1 0 m frame e
                            eq_refl Hframe Ha Hearlier)
        as (_ & _ & Hreads & Han).
      fold rest in Han, Hreads. unfold analysed, frames_read in Han, Hreads.
      pose proof (proj1 (nth_error_Some (frame0 :: pending) (0 + 15 * m))) as Hb.
      rewrite Hframe in Hb. specialize (Hb ltac:(discriminate)).
      cbn [List.length] in Hb.
      exists (if fst (imencode_jpg frame) then S m else m).
      split; [exact Han|]. split; [lia|]. split.
      * intros j Hj. destruct (Hearlier j) as (f' & r' & H').
        { destruct (fst (imencode_jpg frame)); lia. }
        now apply (Hquiet j f' r').
      * exists frame. split; [exact Ha|].
        destruct (fst (imencode_jpg frame)) eqn:Henc.
        -- left. replace (15 * (S m - 1)) with (0 + 15 * m) by lia.
           repeat split; try lia. exact Hframe.
        -- right. repeat split; try lia. exact Hframe.
Qed.

End StrideAndAnswers.
